(** * The scan / advise / verify loop of [main.py], embedded in Rocq

    The program is a single Python module: four wrappers around
    [subprocess.run], a language-model client, a branch-push wrapper and
    the command loop of [main].  Every call that leaves the program
    (starting a process, posting to the model, decoding JSON) is
    answered by an environment [Env]; the variable [chat_messages], the
    report file and the trace of what the program did (the commands it
    ran, the requests it posted, the lines it printed and logged) make
    up the [State] threaded through a state-and-exception monad [M]. *)

From Stdlib Require Import String Ascii List ZArith Lia Bool Arith.
From Stdlib Require Import DecimalString.
Import ListNotations.
Open Scope string_scope.

(** ** Python strings

    A Python [str] is modelled as the byte string of its UTF-8 encoding,
    well formed as [input] and the decoding of a process's output give
    it.
    [strip] removes the characters of [str.isspace], the ASCII ones and
    the others, recognised by their encodings; [lower] is [str.lower] on
    ASCII text, and [str.lower] on other text is left to the environment
    (see [str_lower]).  The length and the items of a string are counted
    in bytes. *)

Definition nl : string := String (ascii_of_nat 10) EmptyString.

(** U+00A0, the no-break space, and U+2003, the em space, as encoded. *)
Definition nbsp : string :=
  String (ascii_of_nat 194) (String (ascii_of_nat 160) EmptyString).
Definition em_space : string :=
  String (ascii_of_nat 226)
    (String (ascii_of_nat 128) (String (ascii_of_nat 131) EmptyString)).

(** [str.isspace] on a character of one byte: TAB, LF, VT, FF, CR, the
    four separators FS, GS, RS, US and the space. *)
Definition isspace (c : ascii) : bool :=
  let n := nat_of_ascii c in
  (((9 <=? n) && (n <=? 13)) || ((28 <=? n) && (n <=? 32)))%nat.

(** [str.isspace] on a character of two bytes: U+0085 and U+00A0. *)
Definition isspace2 (a b : ascii) : bool :=
  let x := nat_of_ascii a in
  let y := nat_of_ascii b in
  ((x =? 194) && ((y =? 133) || (y =? 160)))%nat.

(** [str.isspace] on a character of three bytes: U+1680, U+2000 to
    U+200A, U+2028, U+2029, U+202F, U+205F and U+3000.  No character of
    four bytes is a space. *)
Definition isspace3 (a b c : ascii) : bool :=
  let x := nat_of_ascii a in
  let y := nat_of_ascii b in
  let z := nat_of_ascii c in
  (((x =? 225) && (y =? 154) && (z =? 128))
   || ((x =? 226) && (y =? 128)
       && (((128 <=? z) && (z <=? 138)) || (z =? 168) || (z =? 169)
           || (z =? 175)))
   || ((x =? 226) && (y =? 129) && (z =? 159))
   || ((x =? 227) && (y =? 128) && (z =? 128)))%nat.

(** The string begins with a space character: what follows it. *)
Definition space_head (s : string) : option string :=
  match s with
  | EmptyString => None
  | String a s1 =>
      if isspace a then Some s1
      else
        match s1 with
        | EmptyString => None
        | String b s2 =>
            if isspace2 a b then Some s2
            else
              match s2 with
              | EmptyString => None
              | String c s3 => if isspace3 a b c then Some s3 else None
              end
        end
  end.

(** The string is made of space characters only. *)
Fixpoint blank (s : string) : bool :=
  match s with
  | EmptyString => true
  | String a s1 =>
      if isspace a then blank s1
      else
        match s1 with
        | EmptyString => false
        | String b s2 =>
            if isspace2 a b then blank s2
            else
              match s2 with
              | EmptyString => false
              | String c s3 => isspace3 a b c && blank s3
              end
        end
  end.

Fixpoint lstrip (s : string) : string :=
  match s with
  | EmptyString => EmptyString
  | String a s1 =>
      if isspace a then lstrip s1
      else
        match s1 with
        | EmptyString => s
        | String b s2 =>
            if isspace2 a b then lstrip s2
            else
              match s2 with
              | EmptyString => s
              | String c s3 => if isspace3 a b c then lstrip s3 else s
              end
        end
  end.

(** What is left of the string when its longest blank end is cut off. *)
Fixpoint rstrip (s : string) : string :=
  match s with
  | EmptyString => EmptyString
  | String a s1 => if blank s then EmptyString else String a (rstrip s1)
  end.

Definition strip (s : string) : string := rstrip (lstrip s).

(** [str.lower] on ASCII text. *)
Definition lower_char (c : ascii) : ascii :=
  let n := nat_of_ascii c in
  if ((65 <=? n) && (n <=? 90))%nat then ascii_of_nat (n + 32) else c.

Fixpoint lower (s : string) : string :=
  match s with
  | EmptyString => EmptyString
  | String c s' => String (lower_char c) (lower s')
  end.

(** [s.isascii()] *)
Fixpoint is_ascii (s : string) : bool :=
  match s with
  | EmptyString => true
  | String c s' => (nat_of_ascii c <? 128)%nat && is_ascii s'
  end.

(** ["sep".join(parts)] *)
Definition join (sep : string) (parts : list string) : string :=
  String.concat sep parts.

(** [str(n)] for the result of [len]. *)
Definition str_of_nat (n : nat) : string :=
  NilZero.string_of_uint (Nat.to_uint n).

(** [str(z)] for a Python [int]. *)
Definition str_of_Z (z : Z) : string :=
  NilZero.string_of_int (Z.to_int z).

(** ** String literals of the module, byte for byte *)

Definition MSG_FMT_OK : string :=
  "‚úÖ All Terraform files are correctly formatted.".
Definition MSG_FMT_ISSUES : string :=
  "‚ö† Formatting issues:" ++ nl.
Definition MSG_FMT_ERROR : string :=
  "‚ùå Error running terraform fmt: ".
Definition MSG_AUTO_FMT_DONE : string :=
  "‚úÖ Auto-format complete. No changes.".
Definition MSG_VALIDATE_OK : string :=
  "‚úÖ Terraform configuration is valid.".
Definition MSG_VALIDATE_FAILED : string :=
  "‚ùå Validation failed:" ++ nl.
Definition MSG_VALIDATE_ERROR : string :=
  "‚ùå Error running terraform validate: ".
Definition MSG_SCAN_DONE : string :=
  "‚úÖ Checkov scan done. Output: ".
Definition MSG_SCAN_ERROR : string :=
  "‚ùå Checkov error: ".
Definition GPT_ERROR : string :=
  "‚ùå GPT Error".
Definition PUSH_SCRIPT : string :=
  nl ++ "            apt update &&"
  ++ nl ++ "            apt install -y git &&"
  ++ nl ++ "            git config --global user.name 'mcp-bot' &&"
  ++ nl ++ "            git config --global user.email 'bot@example.com' &&"
  ++ nl ++ "            git fetch origin &&"
  ++ nl ++ "            git checkout -B fix/checkov-patch &&"
  ++ nl ++ "            git add . &&"
  ++ nl ++ "            git commit -m 'fix: apply terraform and checkov fixes' || echo 'Nothing to commit' &&"
  ++ nl ++ "            git push https://${GITHUB_TOKEN}@github.com/madhunamburi227700/terraform-vulnerability-lab.git fix/checkov-patch"
  ++ nl ++ "            ".
Definition MSG_PR_PUSHED : string :=
  "‚úÖ PR branch pushed to GitHub: fix/checkov-patch".
Definition MSG_PR_ERROR : string :=
  "‚ùå Error creating PR: ".
Definition MSG_PARSE_FAILED : string :=
  "‚ùå Failed to parse Checkov report.".
Definition MSG_FOUND : string :=
  "‚ö† Found ".
Definition MSG_FOUND_TAIL : string :=
  " issues. Suggesting fixes for top 3:".
Definition PROMPT_HEAD : string :=
  "Checkov found a vulnerability:" ++ nl ++ nl ++ "* Check Name: ".
Definition PROMPT_ID : string :=
  " (".
Definition PROMPT_RESOURCE : string :=
  ")" ++ nl ++ "* Resource: ".
Definition PROMPT_FILE : string :=
  nl ++ "* File: ".
Definition PROMPT_CODE : string :=
  nl ++ nl ++ "Code Block:" ++ nl ++ nl.
Definition PROMPT_TAIL : string :=
  nl ++ nl ++ "üëâ Suggest a fix using best practices." ++ nl.
Definition MSG_SUGGESTION : string :=
  nl ++ "üí° Suggestion for ".
Definition MSG_NO_FAILED : string :=
  "‚úÖ No failed checks found.".
Definition MSG_CREATING_PR : string :=
  "üöÄ Creating GitHub PR using Docker...".
Definition MSG_RERUNNING : string :=
  "üîç Re-running Checkov to verify if issues are fixed...".
Definition MSG_STILL_FOUND : string :=
  "‚ö† Still found ".
Definition MSG_STILL_FOUND_TAIL : string :=
  " issues after PR. Further review needed.".
Definition MSG_RESOLVED : string :=
  "‚úÖ All vulnerabilities resolved after PR! üéâ".
Definition MSG_GPT : string :=
  nl ++ "ü§ñ GPT-4o:" ++ nl.
Definition SYSTEM_PROMPT : string :=
  "You are a DevSecOps assistant. Help with Terraform, Checkov, AWS security best practices, and GitHub PRs.".

(** ** JSON documents as the Python objects [json.load] builds

    Objects are association lists read from the left; numbers are the
    integers (the fields this program reads carry strings, arrays and
    line numbers). *)

#[local] Set Warnings "-register-all".
Inductive json : Type :=
| JNull
| JBool (b : bool)
| JInt (z : Z)
| JStr (s : string)
| JArr (items : list json)
| JObj (fields : list (string * json)).

Fixpoint lookup (k : string) (fields : list (string * json)) : option json :=
  match fields with
  | [] => None
  | (k', v) :: rest => if String.eqb k k' then Some v else lookup k rest
  end.

(** ** Exceptions *)

Inductive exn_class : Type :=
| OSError | FileNotFoundError | PermissionError
| SubprocessError | CalledProcessError | TimeoutExpired
| JSONDecodeError
| AttributeError | TypeError | KeyError | IndexError
| ConnectError | ReadTimeout | HTTPStatusError
| EOFError.

(** An exception object: its class and what the raiser attached to it. *)
Record exn : Type := Exn { exn_cls : exn_class; exn_info : string }.

Definition exn_class_eqb (c d : exn_class) : bool :=
  match c, d with
  | OSError, OSError | FileNotFoundError, FileNotFoundError
  | PermissionError, PermissionError | SubprocessError, SubprocessError
  | CalledProcessError, CalledProcessError | TimeoutExpired, TimeoutExpired
  | JSONDecodeError, JSONDecodeError | AttributeError, AttributeError
  | TypeError, TypeError | KeyError, KeyError | IndexError, IndexError
  | ConnectError, ConnectError | ReadTimeout, ReadTimeout
  | HTTPStatusError, HTTPStatusError | EOFError, EOFError => true
  | _, _ => false
  end.

(** The direct base class, for the classes whose base is also listed. *)
Definition base_class (c : exn_class) : option exn_class :=
  match c with
  | FileNotFoundError | PermissionError => Some OSError
  | CalledProcessError | TimeoutExpired => Some SubprocessError
  | _ => None
  end.

(** [isinstance(e, d)]: what an [except d] clause tests. *)
Definition isinstance (e : exn) (d : exn_class) : bool :=
  exn_class_eqb (exn_cls e) d ||
  match base_class (exn_cls e) with
  | Some b => exn_class_eqb b d
  | None => false
  end.

(** [except Exception]: every class above derives from [Exception]. *)
Definition any_Exception (e : exn) : bool := true.

Inductive result (A : Type) : Type :=
| Ok (a : A)
| Raise (e : exn).
Arguments Ok {A} a.
Arguments Raise {A} e.

Definition rbind {A B} (r : result A) (k : A -> result B) : result B :=
  match r with
  | Ok a => k a
  | Raise e => Raise e
  end.

Notation "x <~ r ;; k" := (rbind r (fun x => k))
  (at level 61, r at next level, right associativity).

Fixpoint rmap {A B} (f : A -> result B) (l : list A) : result (list B) :=
  match l with
  | [] => Ok []
  | a :: l' => b <~ f a ;; bs <~ rmap f l' ;; Ok (b :: bs)
  end.

(** ** The Python operations the program applies to a decoded document *)

(** [bool(v)], as tested by [if failed:]. *)
Definition truthy (v : json) : bool :=
  match v with
  | JNull => false
  | JBool b => b
  | JInt z => negb (z =? 0)%Z
  | JStr s => negb (String.eqb s EmptyString)
  | JArr items => match items with [] => false | _ => true end
  | JObj fields => match fields with [] => false | _ => true end
  end.

(** [v.get(key, default)]: only a dict has the method. *)
Definition dict_get (v : json) (key : string) (default : json) : result json :=
  match v with
  | JObj fields =>
      Ok (match lookup key fields with Some x => x | None => default end)
  | _ => Raise (Exn AttributeError "get")
  end.

(** [len(v)] *)
Definition py_len (v : json) : result nat :=
  match v with
  | JStr s => Ok (String.length s)
  | JArr items => Ok (List.length items)
  | JObj fields => Ok (List.length fields)
  | _ => Raise (Exn TypeError "len")
  end.

(** [v[:n]]: lists and strings are sliced; a dict cannot be indexed by a
    slice (TypeError up to Python 3.11, KeyError from 3.12 on). *)
Definition py_slice_to (n : nat) (v : json) : result json :=
  match v with
  | JArr items => Ok (JArr (firstn n items))
  | JStr s => Ok (JStr (substring 0 n s))
  | _ => Raise (Exn TypeError "slice")
  end.

Fixpoint chars (s : string) : list json :=
  match s with
  | EmptyString => []
  | String c s' => JStr (String c EmptyString) :: chars s'
  end.

(** The items a [for] loop or a generator draws from [v]. *)
Definition py_iter (v : json) : result (list json) :=
  match v with
  | JArr items => Ok items
  | JStr s => Ok (chars s)
  | JObj fields => Ok (map (fun kv => JStr (fst kv)) fields)
  | _ => Raise (Exn TypeError "iter")
  end.

(** [v[i]] for an integer literal [i]. *)
Definition subscript_int (v : json) (i : nat) : result json :=
  match v with
  | JArr items =>
      match nth_error items i with
      | Some x => Ok x
      | None => Raise (Exn IndexError "list index out of range")
      end
  | JStr s =>
      match String.get i s with
      | Some c => Ok (JStr (String c EmptyString))
      | None => Raise (Exn IndexError "string index out of range")
      end
  | JObj _ => Raise (Exn KeyError (str_of_nat i))
  | _ => Raise (Exn TypeError "subscript")
  end.

(** [v[key]] for a string literal [key]. *)
Definition subscript_str (v : json) (key : string) : result json :=
  match v with
  | JObj fields =>
      match lookup key fields with
      | Some x => Ok x
      | None => Raise (Exn KeyError key)
      end
  | _ => Raise (Exn TypeError "subscript")
  end.

(** One item handed to [str.join] must be a [str]. *)
Definition as_str (v : json) : result string :=
  match v with
  | JStr s => Ok s
  | _ => Raise (Exn TypeError "sequence item: expected str instance")
  end.

(** [sep.join(gen)]: the generator is run to its end first, then the
    items are checked and concatenated. *)
Definition str_join (sep : string) (items : list json) : result string :=
  parts <~ rmap as_str items ;; Ok (join sep parts).

(** ** The outside world

    [Env] answers the calls that leave the program; the n-th process the
    program starts and the n-th request it posts get the n-th answer.
    It also answers [str.lower] on text that is not ASCII, whose case
    table is not part of the program: nothing is assumed of the answer,
    so what is proved holds for Python's. *)

Inductive proc_outcome : Type :=
| Exited (returncode : Z) (stdout : string)
| NotStarted (e : exn).

Inductive http_outcome : Type :=
| Responded (status_code : Z) (text : string)
| Unreachable (e : exn).

Record Env : Type := {
  json_loads : string -> option json;  (* [None]: JSONDecodeError *)
  py_repr : json -> string;            (* [repr] of a list or a dict *)
  exn_str : exn -> string;             (* [str(e)] *)
  abspath : string -> string;          (* [os.path.abspath] *)
  unicode_lower : string -> string;    (* [str.lower] beyond ASCII *)
  process : nat -> proc_outcome;
  backend : nat -> http_outcome
}.

Record command : Type := { argv : list string; cwd : option string }.

Record message : Type := { role : string; content : json }.

(** The variable [chat_messages] of [main], the file [report.json], and
    the trace of what the program did: the commands handed to
    [subprocess.run], the message lists posted to the model, the
    arguments of [print] and of [logging.error], oldest first. *)
Record State : Type := {
  chat_messages : list message;
  report_json : option string;
  ran : list command;
  posted : list (list message);
  printed : list string;
  logged : list string
}.

Definition M (A : Type) : Type := State -> result A * State.

Definition ret {A} (a : A) : M A := fun s => (Ok a, s).

Definition raise {A} (e : exn) : M A := fun s => (Raise e, s).

Definition bind {A B} (c : M A) (k : A -> M B) : M B :=
  fun s =>
    match c s with
    | (Ok a, s') => k a s'
    | (Raise e, s') => (Raise e, s')
    end.

Notation "x <- c ;; k" := (bind c (fun x => k))
  (at level 61, c at next level, right associativity).
Notation "c ;; k" := (bind c (fun _ => k))
  (at level 61, right associativity).

Definition lift {A} (r : result A) : M A := fun s => (r, s).

(** [try: body  except <classes>: handler] *)
Definition try_except {A} (body : M A) (catches : exn -> bool)
    (handler : exn -> M A) : M A :=
  fun s =>
    match body s with
    | (Raise e, s') => if catches e then handler e s' else (Raise e, s')
    | ok => ok
    end.

Fixpoint for_each {A} (l : list A) (body : A -> M unit) : M unit :=
  match l with
  | [] => ret tt
  | a :: l' => body a ;; for_each l' body
  end.

(** *** Effects on the state *)

Definition add_printed (line : string) (s : State) : State :=
  {| chat_messages := chat_messages s; report_json := report_json s;
     ran := ran s; posted := posted s;
     printed := printed s ++ [line]; logged := logged s |}.

Definition add_logged (line : string) (s : State) : State :=
  {| chat_messages := chat_messages s; report_json := report_json s;
     ran := ran s; posted := posted s;
     printed := printed s; logged := logged s ++ [line] |}.

Definition add_message (m : message) (s : State) : State :=
  {| chat_messages := chat_messages s ++ [m]; report_json := report_json s;
     ran := ran s; posted := posted s;
     printed := printed s; logged := logged s |}.

Definition add_ran (cmd : command) (s : State) : State :=
  {| chat_messages := chat_messages s; report_json := report_json s;
     ran := ran s ++ [cmd]; posted := posted s;
     printed := printed s; logged := logged s |}.

Definition add_posted (messages : list message) (s : State) : State :=
  {| chat_messages := chat_messages s; report_json := report_json s;
     ran := ran s; posted := posted s ++ [messages];
     printed := printed s; logged := logged s |}.

Definition set_report (text : string) (s : State) : State :=
  {| chat_messages := chat_messages s; report_json := Some text;
     ran := ran s; posted := posted s;
     printed := printed s; logged := logged s |}.

Definition print (line : string) : M unit :=
  fun s => (Ok tt, add_printed line s).

Definition logging_error (line : string) : M unit :=
  fun s => (Ok tt, add_logged line s).

(** [chat_messages.append(m)] *)
Definition append_message (m : message) : M unit :=
  fun s => (Ok tt, add_message m s).

Definition get_chat_messages : M (list message) :=
  fun s => (Ok (chat_messages s), s).

(** [os.path.exists("report.json")] *)
Definition report_exists : M bool :=
  fun s => (Ok (match report_json s with Some _ => true | None => false end), s).

(** [open("report.json", "w").write(text)] *)
Definition write_report (text : string) : M unit :=
  fun s => (Ok tt, set_report text s).

(** The text [json.load] reads from the open file; the file is opened
    only after [os.path.exists] answered yes. *)
Definition read_report : M string :=
  fun s => (Ok (match report_json s with Some t => t | None => EmptyString end), s).

Section Program.

Variable E : Env.

(** [s.lower()]: computed on ASCII text, asked of the environment on
    text that holds any other character. *)
Definition str_lower (s : string) : string :=
  if is_ascii s then lower s else unicode_lower E s.

(** [raw.strip().lower()] (line 162) *)
Definition normalise (raw : string) : string := str_lower (strip raw).

(** [str(v)], as an f-string renders a field. *)
Definition py_str (v : json) : string :=
  match v with
  | JNull => "None"
  | JBool true => "True"
  | JBool false => "False"
  | JInt z => str_of_Z z
  | JStr s => s
  | JArr _ | JObj _ => py_repr E v
  end.

(** [json.load] / [response.json()] *)
Definition json_load (text : string) : M json :=
  match json_loads E text with
  | Some v => ret v
  | None => raise (Exn JSONDecodeError text)
  end.

(** [subprocess.run(cmd, check=...)]: the pair is [(returncode, stdout)]. *)
Definition subprocess_run (check : bool) (cmd : command) : M (Z * string) :=
  fun s =>
    let s' := add_ran cmd s in
    match process E (List.length (ran s)) with
    | NotStarted e => (Raise e, s')
    | Exited rc out =>
        if check && negb (rc =? 0)%Z
        then (Raise (Exn CalledProcessError (str_of_Z rc)), s')
        else (Ok (rc, out), s')
    end.

Definition REPO_DIR : string := "terraform-vulnerability-lab".
Definition SRC_DIR : string := REPO_DIR ++ "/src".

Definition check_terraform_fmt : M string :=
  let abs_path := abspath E SRC_DIR in
  try_except
    (result <- subprocess_run false
       {| argv := ["terraform"; "fmt"; "-check"; "-recursive"];
          cwd := Some abs_path |} ;;
     ret (if (fst result =? 0)%Z then MSG_FMT_OK
          else MSG_FMT_ISSUES ++ strip (snd result)))
    any_Exception
    (fun e => ret (MSG_FMT_ERROR ++ exn_str E e)).

Definition auto_terraform_fmt : M string :=
  let abs_path := abspath E SRC_DIR in
  try_except
    (result <- subprocess_run false
       {| argv := ["terraform"; "fmt"; "-recursive"]; cwd := Some abs_path |} ;;
     ret (if String.eqb (strip (snd result)) EmptyString then MSG_AUTO_FMT_DONE
          else strip (snd result)))
    any_Exception
    (fun e => ret (MSG_FMT_ERROR ++ exn_str E e)).

Definition check_terraform_validate : M string :=
  let abs_path := abspath E SRC_DIR in
  try_except
    (subprocess_run false
       {| argv := ["terraform"; "init"; "-input=false"; "-backend=false"];
          cwd := Some abs_path |} ;;
     result <- subprocess_run false
       {| argv := ["terraform"; "validate"]; cwd := Some abs_path |} ;;
     ret (if (fst result =? 0)%Z then MSG_VALIDATE_OK
          else MSG_VALIDATE_FAILED ++ strip (snd result)))
    any_Exception
    (fun e => ret (MSG_VALIDATE_ERROR ++ exn_str E e)).

Definition checkov_command : command :=
  {| argv := ["docker"; "run"; "--rm";
              "-v"; abspath E SRC_DIR ++ ":/tf";
              "bridgecrew/checkov:latest";
              "-d"; "/tf";
              "-o"; "json"];
     cwd := None |}.

(** Called with its default arguments only: [path = SRC_DIR],
    [output_file = "report.json"]. *)
Definition run_checkov_scan : M string :=
  try_except
    (result <- subprocess_run false checkov_command ;;
     write_report (snd result) ;;
     ret (MSG_SCAN_DONE ++ "report.json"))
    (fun e => isinstance e SubprocessError)
    (fun e => ret (MSG_SCAN_ERROR ++ exn_str E e)).

(** [httpx.post(url, json={..., "messages": messages, ...})] *)
Definition httpx_post (messages : list message) : M (Z * string) :=
  fun s =>
    let s' := add_posted messages s in
    match backend E (List.length (posted s)) with
    | Unreachable e => (Raise e, s')
    | Responded status text => (Ok (status, text), s')
    end.

(** [response.raise_for_status()]: anything but 2xx raises. *)
Definition raise_for_status (response : Z * string) : M unit :=
  if ((200 <=? fst response) && (fst response <=? 299))%Z then ret tt
  else raise (Exn HTTPStatusError (str_of_Z (fst response))).

(** [body["choices"][0]["message"]["content"]] *)
Definition choice_content (body : json) : result json :=
  choices <~ subscript_str body "choices" ;;
  first <~ subscript_int choices 0 ;;
  msg <~ subscript_str first "message" ;;
  subscript_str msg "content".

Definition get_response (messages : list message) : M json :=
  try_except
    (response <- httpx_post messages ;;
     raise_for_status response ;;
     body <- json_load (snd response) ;;
     lift (choice_content body))
    any_Exception
    (fun e =>
       logging_error ("OpenAI API error: " ++ exn_str E e) ;;
       ret (JStr GPT_ERROR)).

Definition push_command (github_token : string) : command :=
  {| argv := ["docker"; "run"; "--rm";
              "-v"; abspath E REPO_DIR ++ ":/repo";
              "-w"; "/repo";
              "-e"; "GITHUB_TOKEN=" ++ github_token;
              "debian:bullseye"; "bash"; "-c";
              PUSH_SCRIPT];
     cwd := None |}.

Definition create_git_pr_docker (github_token : string) : M string :=
  try_except
    (subprocess_run true (push_command github_token) ;;
     ret MSG_PR_PUSHED)
    (fun e => isinstance e CalledProcessError)
    (fun e => ret (MSG_PR_ERROR ++ exn_str E e)).

(** ** The command loop of [main] *)

(** The f-string of lines 196-207. *)
Definition advisory_prompt (check_name check_id resource file_path : json)
    (code_block : string) : string :=
  PROMPT_HEAD ++ py_str check_name ++ PROMPT_ID ++ py_str check_id
  ++ PROMPT_RESOURCE ++ py_str resource
  ++ PROMPT_FILE ++ py_str file_path
  ++ PROMPT_CODE ++ code_block ++ PROMPT_TAIL.

(** Lines 190-207: the fields read from one failed check and the prompt
    made of them; the result is [(check_id, prompt)]. *)
Definition build_prompt (check : json) : result (json * string) :=
  resource <~ dict_get check "resource" JNull ;;
  check_id <~ dict_get check "check_id" JNull ;;
  check_name <~ dict_get check "check_name" JNull ;;
  file_path <~ dict_get check "file_path" JNull ;;
  block <~ dict_get check "code_block" (JArr []) ;;
  lines <~ py_iter block ;;
  texts <~ rmap (fun line => subscript_int line 1) lines ;;
  code_block <~ str_join nl texts ;;
  Ok (check_id,
      advisory_prompt check_name check_id resource file_path code_block).

(** Lines 190-211: the body of [for check in failed[:3]]. *)
Definition advise (check : json) : M unit :=
  p <- lift (build_prompt check) ;;
  append_message {| role := "user"; content := JStr (snd p) |} ;;
  messages <- get_chat_messages ;;
  reply <- get_response messages ;;
  print (MSG_SUGGESTION ++ py_str (fst p) ++ ":" ++ nl ++ py_str reply ++ nl) ;;
  append_message {| role := "assistant"; content := reply |}.

(** Lines 179-184 and 225-230: [Some report], or [None] when the
    [except] clause printed its message and took [continue]. *)
Definition load_report : M (option json) :=
  try_except
    (text <- read_report ;;
     report <- json_load text ;;
     ret (Some report))
    (fun e => isinstance e JSONDecodeError)
    (fun _ => print MSG_PARSE_FAILED ;; ret None).

(** [report.get("results", {}).get("failed_checks", [])] *)
Definition failed_checks (report : json) : result json :=
  results <~ dict_get report "results" (JObj []) ;;
  dict_get results "failed_checks" (JArr []).

(** Lines 178-213, after the scanner's message was printed. *)
Definition advise_on_report : M unit :=
  present <- report_exists ;;
  if present then
    loaded <- load_report ;;
    match loaded with
    | None => ret tt
    | Some report =>
        failed <- lift (failed_checks report) ;;
        if truthy failed then
          n <- lift (py_len failed) ;;
          print (MSG_FOUND ++ str_of_nat n ++ MSG_FOUND_TAIL) ;;
          top <- lift (py_slice_to 3 failed) ;;
          checks <- lift (py_iter top) ;;
          for_each checks advise
        else print MSG_NO_FAILED
    end
  else ret tt.

(** Lines 224-236. *)
Definition verify_report : M unit :=
  present <- report_exists ;;
  if present then
    loaded <- load_report ;;
    match loaded with
    | None => ret tt
    | Some report =>
        failed <- lift (failed_checks report) ;;
        if truthy failed then
          n <- lift (py_len failed) ;;
          print (MSG_STILL_FOUND ++ str_of_nat n ++ MSG_STILL_FOUND_TAIL)
        else print MSG_RESOLVED
    end
  else ret tt.

Inductive flow : Type := Continue | Break.

(** One turn of [while True], from the line [input] returned. *)
Definition loop_body (github_token raw : string) : M flow :=
  let user_input := normalise raw in
  if String.eqb user_input "exit" then ret Break
  else if String.eqb user_input "fmt" then
    out <- check_terraform_fmt ;; print out ;; ret Continue
  else if String.eqb user_input "auto_fmt" then
    out <- auto_terraform_fmt ;; print out ;; ret Continue
  else if String.eqb user_input "validate" then
    out <- check_terraform_validate ;; print out ;; ret Continue
  else if String.eqb user_input "scan" then
    out <- run_checkov_scan ;; print out ;;
    advise_on_report ;; ret Continue
  else if String.eqb user_input "pr" then
    print MSG_CREATING_PR ;;
    pr_result <- create_git_pr_docker github_token ;;
    print pr_result ;;
    print MSG_RERUNNING ;;
    scan_result <- run_checkov_scan ;;
    print scan_result ;;
    verify_report ;; ret Continue
  else
    append_message {| role := "user"; content := JStr user_input |} ;;
    messages <- get_chat_messages ;;
    reply <- get_response messages ;;
    print (MSG_GPT ++ py_str reply ++ nl) ;;
    append_message {| role := "assistant"; content := reply |} ;;
    ret Continue.

(** The loop over the lines typed; at the end of input [input] raises
    [EOFError]. *)
Fixpoint main_loop (github_token : string) (typed : list string) : M unit :=
  match typed with
  | [] => raise (Exn EOFError "EOF when reading a line")
  | raw :: rest =>
      next <- loop_body github_token raw ;;
      match next with
      | Break => ret tt
      | Continue => main_loop github_token rest
      end
  end.

End Program.

(** The state [main] enters its loop with. *)
Definition initial_state (report : option string) : State :=
  {| chat_messages := [ {| role := "system"; content := JStr SYSTEM_PROMPT |} ];
     report_json := report;
     ran := []; posted := []; printed := []; logged := [] |}.

(** ** A sample environment

    Documents are written down as [json] values and turned into text by
    [dumps] (the layout of [json.dumps]); the sample decoder knows the
    texts of a finite catalogue and rejects every other text. *)

Definition dq : string := String (ascii_of_nat 34) EmptyString.

Fixpoint escape (s : string) : string :=
  match s with
  | EmptyString => EmptyString
  | String c s' =>
      let n := nat_of_ascii c in
      if (n =? 34)%nat then "\" ++ dq ++ escape s'
      else if (n =? 92)%nat then "\\" ++ escape s'
      else if (n =? 10)%nat then "\n" ++ escape s'
      else String c (escape s')
  end.

Definition quote (s : string) : string := dq ++ escape s ++ dq.

Fixpoint dumps (v : json) : string :=
  match v with
  | JNull => "null"
  | JBool true => "true"
  | JBool false => "false"
  | JInt z => str_of_Z z
  | JStr s => quote s
  | JArr items => "[" ++ join ", " (map dumps items) ++ "]"
  | JObj fields =>
      "{" ++ join ", " (map (fun kv => quote (fst kv) ++ ": " ++ dumps (snd kv))
                          fields) ++ "}"
  end.

Definition sample_loads (catalogue : list json) (text : string) : option json :=
  find (fun d => String.eqb (dumps d) text) catalogue.

(** [str.lower] on the one line of the examples that is not ASCII once
    stripped. *)
Definition sample_unicode_lower (s : string) : string :=
  if String.eqb s "ÉCOLE" then "école" else lower s.

Definition sample_env (catalogue : list json) (process : nat -> proc_outcome)
    (backend : nat -> http_outcome) : Env :=
  {| json_loads := sample_loads catalogue;
     py_repr := dumps;
     exn_str := exn_info;
     abspath := fun p => "/work/" ++ p;
     unicode_lower := sample_unicode_lower;
     process := process;
     backend := backend |}.

(** A failed check the way Checkov reports it. *)
Definition sample_fields (n : Z) : list (string * json) :=
  [ ("check_id", JStr ("CKV_AWS_" ++ str_of_Z n));
    ("check_name", JStr "Ensure the S3 bucket has server-side encryption");
    ("resource", JStr "aws_s3_bucket.data");
    ("file_path", JStr "/main.tf");
    ("code_block",
     JArr [ JArr [JInt 1; JStr ("resource " ++ dq ++ "aws_s3_bucket" ++ dq
                                ++ " " ++ dq ++ "data" ++ dq ++ " {" ++ nl)];
            JArr [JInt 2; JStr ("  acl = " ++ dq ++ "public-read" ++ dq ++ nl)];
            JArr [JInt 3; JStr ("}" ++ nl)] ]) ].

Definition sample_check (n : Z) : json := JObj (sample_fields n).

(** The [code_block] of the sample check, as numbered lines. *)
Definition sample_block : list (json * string) :=
  [ (JInt 1, "resource " ++ dq ++ "aws_s3_bucket" ++ dq
             ++ " " ++ dq ++ "data" ++ dq ++ " {" ++ nl);
    (JInt 2, "  acl = " ++ dq ++ "public-read" ++ dq ++ nl);
    (JInt 3, "}" ++ nl) ].

Definition sample_report (checks : list json) : json :=
  JObj [ ("check_type", JStr "terraform");
         ("results", JObj [ ("passed_checks", JArr []);
                            ("failed_checks", JArr checks) ]) ].

Definition five_checks : list json :=
  [sample_check 18; sample_check 19; sample_check 20; sample_check 21;
   sample_check 144].

(** A completion the way the model's API returns it. *)
Definition sample_completion (text : string) : json :=
  JObj [ ("id", JStr "chatcmpl-1");
         ("choices",
          JArr [ JObj [ ("index", JInt 0);
                        ("message", JObj [ ("role", JStr "assistant");
                                           ("content", JStr text) ]) ] ]) ].

Definition sample_catalogue : list json :=
  [ sample_report five_checks; sample_report []; JObj [];
    sample_completion "Enable encryption." ].

Definition connect_error : exn := Exn ConnectError "All connection attempts failed".

(** What [subprocess.run] raises when the executable is not on the path. *)
Definition not_found (binary : string) : exn :=
  Exn FileNotFoundError
    ("[Errno 2] No such file or directory: '" ++ binary ++ "'").

Definition no_docker : exn := not_found "docker".

(** ** Vocabulary of the statements *)

Definition user_message (text : string) : message :=
  {| role := "user"; content := JStr text |}.

Definition assistant_message (reply : json) : message :=
  {| role := "assistant"; content := reply |}.

(** What [get_response] makes of one answer of the backend, before its
    [except] clause: the reply, or the exception raised on the way. *)
Definition reply_of (E : Env) (o : http_outcome) : result json :=
  match o with
  | Unreachable e => Raise e
  | Responded status text =>
      if ((200 <=? status) && (status <=? 299))%Z then
        match json_loads E text with
        | Some body => choice_content body
        | None => Raise (Exn JSONDecodeError text)
        end
      else Raise (Exn HTTPStatusError (str_of_Z status))
  end.

(** The n-th call fails: network error, status outside 2xx, body that is
    not JSON or lacks [choices[0].message.content]. *)
Definition backend_fails (E : Env) (n : nat) : Prop :=
  exists e, reply_of E (backend E n) = Raise e.

(** The value the n-th call of [get_response] returns. *)
Definition answer (E : Env) (n : nat) : json :=
  match reply_of E (backend E n) with
  | Ok v => v
  | Raise _ => JStr GPT_ERROR
  end.

(** The line printed for one finding (line 210). *)
Definition suggestion_line (E : Env) (check_id reply : json) : string :=
  MSG_SUGGESTION ++ py_str E check_id ++ ":" ++ nl ++ py_str E reply ++ nl.

(** A check [build_prompt] accepts. *)
Definition well_shaped (E : Env) (check : json) : Prop :=
  exists p, build_prompt E check = Ok p.

(** The request ends with the prompt built from the check. *)
Definition carries_prompt (E : Env) (check : json) (request : list message) : Prop :=
  exists p before,
    build_prompt E check = Ok p /\
    request = (before ++ [user_message (snd p)])%list.

(** The words the loop dispatches on. *)
Definition is_command (word : string) : bool :=
  String.eqb word "exit" || String.eqb word "fmt"
  || String.eqb word "auto_fmt" || String.eqb word "validate"
  || String.eqb word "scan" || String.eqb word "pr".

(** *** Worked examples: scanners, backends, states *)

(** Checkov ran and wrote [doc] to its standard output. *)
Definition scanner_writes (doc : json) : nat -> proc_outcome :=
  fun _ => Exited 1 (dumps doc).

Definition docker_missing : nat -> proc_outcome :=
  fun _ => NotStarted no_docker.

Definition model_up : http_outcome :=
  Responded 200 (dumps (sample_completion "Enable encryption.")).

Definition model_down : nat -> http_outcome :=
  fun _ => Unreachable connect_error.

(** The model answers every call but the k-th. *)
Definition model_down_at (k : nat) : nat -> http_outcome :=
  fun n => if (n =? k)%nat then Unreachable connect_error else model_up.

Definition offline_env : Env :=
  sample_env sample_catalogue docker_missing model_down.

(** Five findings on disk, the second advisory call fails. *)
Definition five_env : Env :=
  sample_env sample_catalogue (scanner_writes (sample_report five_checks))
    (model_down_at 1).

(** The state after a scan wrote [doc] to [report.json]. *)
Definition state_with_report (doc : json) : State :=
  set_report (dumps doc) (initial_state None).

(** The turn typed as [raw] in state [s] got as far as the report
    phase ([os.path.exists], lines 178 and 224): the scanner's message
    [out] is in hand and the state is [s1].  A [scan] turn gets there
    when [run_checkov_scan] returns; a [pr] turn when the push wrapper
    and then [run_checkov_scan] return. *)
Inductive scanned (E : Env) (github_token raw : string) (s : State)
    (out : string) (s1 : State) : Prop :=
| scanned_by_scan :
    normalise E raw = "scan" ->
    run_checkov_scan E s = (Ok out, s1) ->
    scanned E github_token raw s out s1
| scanned_by_pr (pr_result : string) (s_pushed : State) :
    normalise E raw = "pr" ->
    create_git_pr_docker E github_token (add_printed MSG_CREATING_PR s)
    = (Ok pr_result, s_pushed) ->
    run_checkov_scan E (add_printed MSG_RERUNNING (add_printed pr_result s_pushed))
    = (Ok out, s1) ->
    scanned E github_token raw s out s1.

(** The message the push wrapper returns for an exit code. *)
Definition push_message (E : Env) (returncode : Z) : string :=
  if (returncode =? 0)%Z then MSG_PR_PUSHED
  else MSG_PR_ERROR ++ exn_str E (Exn CalledProcessError (str_of_Z returncode)).

(** The verdict line of the reverification (lines 233-236). *)
Definition verdict (checks : list json) : string :=
  match checks with
  | [] => MSG_RESOLVED
  | _ => MSG_STILL_FOUND ++ str_of_nat (List.length checks) ++ MSG_STILL_FOUND_TAIL
  end.

(** The scanner could not report: Popen raised a [SubprocessError]. *)
Definition scanner_broken : nat -> proc_outcome :=
  fun _ => NotStarted (Exn SubprocessError "Bad exception data from child").

(** Docker ran, the scan failed inside it and wrote nothing. *)
Definition scanner_silent : nat -> proc_outcome :=
  fun _ => Exited 125 EmptyString.

Definition silent_env : Env :=
  sample_env sample_catalogue scanner_silent model_down.

Definition broken_env : Env :=
  sample_env sample_catalogue scanner_broken model_down.

(** The scanner finds nothing. *)
Definition clean_env : Env :=
  sample_env sample_catalogue (scanner_writes (sample_report [])) model_down.

(** The push is rejected (git exits with 128); the scan that follows
    still reports five findings. *)
Definition rejected_push_env : Env :=
  sample_env sample_catalogue
    (fun n => if (n =? 0)%nat then Exited 128 EmptyString
              else Exited 1 (dumps (sample_report five_checks)))
    model_down.

(** Terraform is not installed. *)
Definition no_terraform_env : Env :=
  sample_env sample_catalogue (fun _ => NotStarted (not_found "terraform"))
    model_down.

(** ** The token handed to the GitHub server (lines 141-145)

    [main] rewrites the argument list of the [github] server in place
    before it starts the servers: every argument that begins with the
    placeholder is replaced by the placeholder followed by the token.
    [args] is the JSON array of the configuration, [arg.startswith] is a
    method of [str] only. *)

Definition TOKEN_ARG : string := "GITHUB_PERSONAL_ACCESS_TOKEN=".

(** [arg.startswith(head)] *)
Definition startswith (arg : json) (head : string) : result bool :=
  match arg with
  | JStr s => Ok (String.prefix head s)
  | _ => Raise (Exn AttributeError "startswith")
  end.

(** The loop of lines 143-145 over the list [args]. *)
Fixpoint inject_token (github_token : string) (args : list json)
    : result (list json) :=
  match args with
  | [] => Ok []
  | arg :: rest =>
      hit <~ startswith arg TOKEN_ARG ;;
      rest' <~ inject_token github_token rest ;;
      Ok ((if hit then JStr (TOKEN_ARG ++ github_token) else arg) :: rest')
  end.

(** ** Vocabulary of the further properties *)

(** A stretch of conversation made of user / assistant pairs. *)
Inductive paired : list message -> Prop :=
| paired_nil : paired []
| paired_turn (text : string) (reply : json) (rest : list message) :
    paired rest ->
    paired (user_message text :: assistant_message reply :: rest).

(** A request: the conversation [base], some pairs, one user message. *)
Definition ends_with_user (base request : list message) : Prop :=
  exists before text,
    paired before /\
    request = (base ++ before ++ [user_message text])%list.

(** From [s] to [s'] the conversation grew by pairs, one pair for each
    request posted, and every request posted ends with a user message. *)
Definition extends (s s' : State) : Prop :=
  exists turns requests,
    chat_messages s' = (chat_messages s ++ turns)%list /\
    posted s' = (posted s ++ requests)%list /\
    paired turns /\
    List.length turns = 2 * List.length requests /\
    Forall (ends_with_user (chat_messages s)) requests.

(** Neither the conversation nor the requests changed. *)
Definition quiet (s s' : State) : Prop :=
  chat_messages s' = chat_messages s /\ posted s' = posted s.

Definition same_report (s s' : State) : Prop :=
  report_json s' = report_json s.

(** The computation relates every state it starts in to the state it
    ends in, however it ends. *)
Definition keeps {A} (R : State -> State -> Prop) (c : M A) : Prop :=
  forall s r s', c s = (r, s') -> R s s'.

(** A relation on states that the bookkeeping of the trace (commands
    run, lines printed and logged) does not disturb. *)
Class Frame (R : State -> State -> Prop) : Prop := {
  frame_refl : forall s, R s s;
  frame_trans : forall a b c, R a b -> R b c -> R a c;
  frame_printed : forall line s, R s (add_printed line s);
  frame_logged : forall line s, R s (add_logged line s);
  frame_ran : forall cmd s, R s (add_ran cmd s)
}.

(** The command words that talk to no model. *)
Definition is_tool_command (word : string) : bool :=
  String.eqb word "exit" || String.eqb word "fmt"
  || String.eqb word "auto_fmt" || String.eqb word "validate"
  || String.eqb word "pr".

Definition not_object (v : json) : Prop :=
  match v with
  | JObj _ => False
  | _ => True
  end.

(** The requests a run of advisory steps posts: each is the conversation
    so far followed by the next prompt, and the conversation then takes
    the prompt and the reply of that call. *)
Fixpoint requests_of (E : Env) (chat : list message) (n : nat)
    (prompts : list string) : list (list message) :=
  match prompts with
  | [] => []
  | p :: rest =>
      (chat ++ [user_message p])%list
      :: requests_of E
           (chat ++ [user_message p; assistant_message (answer E n)])%list
           (S n) rest
  end.

(** The fall-through branch of the loop (lines 239-242) for the
    normalised line [text]. *)
Definition free_text_turn (E : Env) (text : string) : M flow :=
  append_message {| role := "user"; content := JStr text |} ;;
  messages <- get_chat_messages ;;
  reply <- get_response E messages ;;
  print (MSG_GPT ++ py_str E reply ++ nl) ;;
  append_message {| role := "assistant"; content := reply |} ;;
  ret Continue.

(** *** Further worked examples *)

(** What Checkov prints when it scans several frameworks: a list of
    reports. *)
Definition list_report : json := JArr [sample_report five_checks].

Definition null_report : json :=
  JObj [ ("results", JObj [ ("failed_checks", JNull) ]) ].

(** A report whose second failed check is a number. *)
Definition mixed_report : json :=
  sample_report [sample_check 18; JInt 7; sample_check 20].

Definition edge_catalogue : list json :=
  (sample_catalogue ++ [list_report; null_report; mixed_report])%list.

(** The scanner writes [doc], the model answers every call. *)
Definition edge_env (doc : json) : Env :=
  sample_env edge_catalogue (scanner_writes doc) (fun _ => model_up).

(** The two commands of [check_terraform_validate]. *)
Definition init_command (E : Env) : command :=
  {| argv := ["terraform"; "init"; "-input=false"; "-backend=false"];
     cwd := Some (abspath E SRC_DIR) |}.

Definition validate_command (E : Env) : command :=
  {| argv := ["terraform"; "validate"]; cwd := Some (abspath E SRC_DIR) |}.

Definition auto_fmt_command (E : Env) : command :=
  {| argv := ["terraform"; "fmt"; "-recursive"];
     cwd := Some (abspath E SRC_DIR) |}.

(** ** Basic facts *)

Lemma get_response_eq (E : Env) (messages : list message) (s : State) :
  get_response E messages s =
  match reply_of E (backend E (List.length (posted s))) with
  | Ok v => (Ok v, add_posted messages s)
  | Raise e =>
      (Ok (JStr GPT_ERROR),
       add_logged ("OpenAI API error: " ++ exn_str E e) (add_posted messages s))
  end.
Proof.
  unfold get_response, try_except, bind, httpx_post, reply_of.
  destruct (backend E (List.length (posted s))) as [status text|e]; simpl.
  - unfold raise_for_status; simpl.
    destruct ((200 <=? status) && (status <=? 299))%Z; simpl.
    + unfold json_load.
      destruct (json_loads E text) as [body|]; simpl.
      * unfold lift. destruct (choice_content body); reflexivity.
      * reflexivity.
    + reflexivity.
  - reflexivity.
Qed.

Lemma get_response_returns (E : Env) (messages : list message) (s : State) :
  exists s',
    get_response E messages s = (Ok (answer E (List.length (posted s))), s') /\
    chat_messages s' = chat_messages s /\
    posted s' = (posted s ++ [messages])%list /\
    printed s' = printed s /\
    report_json s' = report_json s /\
    ran s' = ran s.
Proof.
  rewrite get_response_eq. unfold answer.
  destruct (reply_of E (backend E (List.length (posted s))));
    eexists; repeat split; reflexivity.
Qed.

Lemma answer_of_failure (E : Env) (n : nat) :
  backend_fails E n -> answer E n = JStr GPT_ERROR.
Proof.
  intros [e He]. unfold answer. rewrite He. reflexivity.
Qed.

Lemma advise_spec (E : Env) (check check_id : json) (prompt : string) (s : State) :
  build_prompt E check = Ok (check_id, prompt) ->
  exists s',
    advise E check s = (Ok tt, s') /\
    chat_messages s' =
      (chat_messages s ++
         [user_message prompt;
          assistant_message (answer E (List.length (posted s)))])%list /\
    posted s' =
      (posted s ++ [chat_messages s ++ [user_message prompt]])%list /\
    printed s' =
      (printed s ++
         [suggestion_line E check_id (answer E (List.length (posted s)))])%list /\
    report_json s' = report_json s /\
    ran s' = ran s.
Proof.
  intros Hp. unfold advise, bind, lift. rewrite Hp. simpl.
  rewrite get_response_eq. unfold answer. simpl.
  destruct (reply_of E (backend E (List.length (posted s)))); simpl;
    eexists; (split; [reflexivity|]); simpl;
    rewrite <- app_assoc; repeat split; reflexivity.
Qed.

Lemma for_each_advise (E : Env) (checks : list json) :
  forall s,
    Forall (well_shaped E) checks ->
    exists s' requests lines,
      for_each checks (advise E) s = (Ok tt, s') /\
      posted s' = (posted s ++ requests)%list /\
      printed s' = (printed s ++ lines)%list /\
      Forall2 (carries_prompt E) checks requests /\
      List.length lines = List.length checks /\
      (forall k c, nth_error checks k = Some c ->
         exists p,
           build_prompt E c = Ok p /\
           nth_error lines k =
             Some (suggestion_line E (fst p)
                     (answer E (List.length (posted s) + k)))) /\
      report_json s' = report_json s /\
      ran s' = ran s.
Proof.
  induction checks as [|c cs IH]; intros s Hall.
  - exists s, [], []. simpl. rewrite !app_nil_r.
    repeat split; try reflexivity; try constructor.
    intros [|k] c' Hk; discriminate Hk.
  - inversion Hall as [|c' cs' [[cid prompt] Hp] Hrest]; subst.
    destruct (advise_spec E c cid prompt s Hp)
      as (s1 & Hrun & Hchat & Hposted & Hprinted & Hreport & Hran).
    destruct (IH s1 Hrest)
      as (s2 & reqs & lines & Hrun2 & Hposted2 & Hprinted2 & Hreqs & Hlen
          & Hlines & Hreport2 & Hran2).
    exists s2, ((chat_messages s ++ [user_message prompt])%list :: reqs),
      (suggestion_line E cid (answer E (List.length (posted s))) :: lines).
    simpl. unfold bind. rewrite Hrun. rewrite Hrun2.
    rewrite Hposted2, Hposted, Hprinted2, Hprinted, <- !app_assoc. simpl.
    repeat split; try reflexivity.
    + constructor; [|exact Hreqs].
      exists (cid, prompt), (chat_messages s). split; [exact Hp|reflexivity].
    + now rewrite Hlen.
    + intros [|k] c' Hk; simpl in Hk.
      * injection Hk as <-. exists (cid, prompt). split; [exact Hp|].
        simpl. now rewrite Nat.add_0_r.
      * destruct (Hlines k c' Hk) as (p & Hp' & Hline).
        exists p. split; [exact Hp'|]. simpl. rewrite Hline.
        rewrite Hposted, length_app. simpl.
        now replace (List.length (posted s) + 1 + k)
          with (List.length (posted s) + S k) by lia.
    + congruence.
    + congruence.
Qed.

Lemma load_report_decoded (E : Env) (s : State) (text : string) (report : json) :
  report_json s = Some text ->
  json_loads E text = Some report ->
  load_report E s = (Ok (Some report), s).
Proof.
  intros Hfile Hdec.
  unfold load_report, try_except, bind, read_report, json_load.
  rewrite Hfile, Hdec. reflexivity.
Qed.

Lemma load_report_rejected (E : Env) (s : State) (text : string) :
  report_json s = Some text ->
  json_loads E text = None ->
  load_report E s = (Ok None, add_printed MSG_PARSE_FAILED s).
Proof.
  intros Hfile Hdec.
  unfold load_report, try_except, bind, read_report, json_load.
  rewrite Hfile, Hdec. reflexivity.
Qed.

Lemma firstn_3_length {A} (l : list A) :
  List.length (firstn 3 l) = Nat.min 3 (List.length l).
Proof. apply length_firstn. Qed.

(** The report phase of a scan on a report whose findings are a list. *)
Lemma advise_on_report_findings (E : Env) (s : State) (text : string)
    (report : json) (checks : list json) :
  report_json s = Some text ->
  json_loads E text = Some report ->
  failed_checks report = Ok (JArr checks) ->
  Forall (well_shaped E) (firstn 3 checks) ->
  exists s' requests header lines,
    advise_on_report E s = (Ok tt, s') /\
    posted s' = (posted s ++ requests)%list /\
    printed s' = (printed s ++ header :: lines)%list /\
    Forall2 (carries_prompt E) (firstn 3 checks) requests /\
    List.length lines = Nat.min 3 (List.length checks) /\
    (forall k c, nth_error (firstn 3 checks) k = Some c ->
       exists p,
         build_prompt E c = Ok p /\
         nth_error lines k =
           Some (suggestion_line E (fst p)
                   (answer E (List.length (posted s) + k)))).
Proof.
  intros Hfile Hdec Hfailed Hshape.
  unfold advise_on_report, bind, report_exists. rewrite Hfile.
  rewrite (load_report_decoded E s text report Hfile Hdec).
  unfold lift. rewrite Hfailed.
  destruct checks as [|c cs].
  - exists (add_printed MSG_NO_FAILED s), [], MSG_NO_FAILED, [].
    simpl. rewrite app_nil_r.
    repeat split; try reflexivity; try constructor.
    intros [|k] c Hk; discriminate Hk.
  - cbn [truthy py_len py_slice_to py_iter print].
    set (s0 := add_printed _ s).
    destruct (for_each_advise E (firstn 3 (c :: cs)) s0 Hshape)
      as (s' & reqs & lines & Hrun & Hposted & Hprinted & Hreqs & Hlen
          & Hlines & _ & _).
    exists s', reqs,
      (MSG_FOUND ++ str_of_nat (List.length (c :: cs)) ++ MSG_FOUND_TAIL), lines.
    rewrite Hrun. rewrite Hposted, Hprinted. subst s0. simpl printed.
    rewrite <- app_assoc.
    repeat split; try reflexivity; try assumption.
    now rewrite Hlen, firstn_3_length.
Qed.

(** ** The advisory step *)

(** C1 (as amended). When the backend fails on an advisory call,
    [get_response] returns the sentinel text, and the conversation grows
    by two messages: the user prompt and an assistant message holding
    the sentinel.  The request posted is the conversation so far
    followed by the prompt. *)
Theorem advise_keeps_failed_reply (E : Env) (check check_id : json)
    (prompt : string) (s : State) :
  build_prompt E check = Ok (check_id, prompt) ->
  backend_fails E (List.length (posted s)) ->
  (forall messages, fst (get_response E messages s) = Ok (JStr GPT_ERROR)) /\
  exists s',
    advise E check s = (Ok tt, s') /\
    chat_messages s' =
      (chat_messages s ++
         [user_message prompt; assistant_message (JStr GPT_ERROR)])%list /\
    posted s' =
      (posted s ++ [chat_messages s ++ [user_message prompt]])%list /\
    printed s' =
      (printed s ++ [suggestion_line E check_id (JStr GPT_ERROR)])%list.
Proof.
  intros Hp Hfail. split.
  - intros messages.
    destruct (get_response_returns E messages s) as (s1 & Hrun & _).
    rewrite Hrun. simpl. now rewrite (answer_of_failure E _ Hfail).
  - destruct (advise_spec E check check_id prompt s Hp)
      as (s' & Hrun & Hchat & Hposted & Hprinted & _).
    rewrite (answer_of_failure E _ Hfail) in Hchat, Hprinted.
    exists s'. repeat split; assumption.
Qed.

Lemma advise_keeps_failed_reply_witness :
  exists check_id prompt,
    build_prompt offline_env (sample_check 18) = Ok (check_id, prompt) /\
    backend_fails offline_env (List.length (posted (initial_state None))) /\
    (forall messages,
       fst (get_response offline_env messages (initial_state None))
       = Ok (JStr GPT_ERROR)) /\
    exists s',
      advise offline_env (sample_check 18) (initial_state None) = (Ok tt, s') /\
      chat_messages s' =
        (chat_messages (initial_state None) ++
           [user_message prompt; assistant_message (JStr GPT_ERROR)])%list /\
      posted s' =
        (posted (initial_state None) ++
           [chat_messages (initial_state None) ++ [user_message prompt]])%list /\
      printed s' =
        (printed (initial_state None) ++
           [suggestion_line offline_env check_id (JStr GPT_ERROR)])%list.
Proof.
  eexists. eexists.
  split; [vm_compute; reflexivity|].
  split; [exists connect_error; reflexivity|].
  apply advise_keeps_failed_reply.
  - vm_compute. reflexivity.
  - exists connect_error. reflexivity.
Defined.

(** C1, as the specification words it, fails: with the backend
    unreachable, the advisory step on a sample finding leaves a
    conversation that differs from the one it started with and that
    holds an assistant message, the sentinel text. *)
Lemma advise_failure_appends_assistant_turn :
  backend_fails offline_env (List.length (posted (initial_state None))) /\
  exists s',
    advise offline_env (sample_check 18) (initial_state None) = (Ok tt, s') /\
    chat_messages s' <> chat_messages (initial_state None) /\
    In (assistant_message (JStr GPT_ERROR)) (chat_messages s').
Proof.
  split; [exists connect_error; reflexivity|].
  eexists. split; [vm_compute; reflexivity|].
  split.
  - intros H. apply (f_equal (@List.length message)) in H. discriminate H.
  - right. right. left. reflexivity.
Qed.

(** C2. On a report whose failed checks are the list [checks], the
    advisory step posts exactly [min 3 (length checks)] requests, and
    they carry, in order, the prompts of the first three checks. *)
Theorem scan_advises_first_three (E : Env) (s : State) (text : string)
    (report : json) (checks : list json) :
  report_json s = Some text ->
  json_loads E text = Some report ->
  failed_checks report = Ok (JArr checks) ->
  Forall (well_shaped E) (firstn 3 checks) ->
  exists s' requests,
    advise_on_report E s = (Ok tt, s') /\
    posted s' = (posted s ++ requests)%list /\
    List.length requests = Nat.min 3 (List.length checks) /\
    Forall2 (carries_prompt E) (firstn 3 checks) requests.
Proof.
  intros Hfile Hdec Hfailed Hshape.
  destruct (advise_on_report_findings E s text report checks
              Hfile Hdec Hfailed Hshape)
    as (s' & reqs & header & lines & Hrun & Hposted & _ & Hreqs & _ & _).
  exists s', reqs. repeat split; try assumption.
  rewrite <- (Forall2_length Hreqs). apply firstn_3_length.
Qed.

Lemma five_checks_well_shaped :
  Forall (well_shaped five_env) (firstn 3 five_checks).
Proof.
  repeat constructor; eexists; vm_compute; reflexivity.
Defined.

Lemma scan_advises_first_three_witness :
  exists s' requests,
    advise_on_report five_env (state_with_report (sample_report five_checks))
    = (Ok tt, s') /\
    posted s' =
      (posted (state_with_report (sample_report five_checks)) ++ requests)%list /\
    List.length requests = Nat.min 3 (List.length five_checks) /\
    Forall2 (carries_prompt five_env) (firstn 3 five_checks) requests.
Proof.
  apply (scan_advises_first_three five_env
           (state_with_report (sample_report five_checks))
           (dumps (sample_report five_checks))
           (sample_report five_checks) five_checks).
  - reflexivity.
  - vm_compute. reflexivity.
  - reflexivity.
  - exact five_checks_well_shaped.
Defined.

(** C7. [get_response] never raises: whatever the backend does, it
    returns a value, the sentinel text when the call failed.  So in the
    advisory loop every selected finding gets its line printed, the
    k-th line holding the reply of the k-th call, failed or not. *)
Theorem advisory_failure_is_contained (E : Env) (s : State) (text : string)
    (report : json) (checks : list json) :
  report_json s = Some text ->
  json_loads E text = Some report ->
  failed_checks report = Ok (JArr checks) ->
  Forall (well_shaped E) (firstn 3 checks) ->
  (forall messages s0, exists s1,
     get_response E messages s0
     = (Ok (answer E (List.length (posted s0))), s1)) /\
  (forall n, backend_fails E n -> answer E n = JStr GPT_ERROR) /\
  exists s' header lines,
    advise_on_report E s = (Ok tt, s') /\
    printed s' = (printed s ++ header :: lines)%list /\
    List.length lines = Nat.min 3 (List.length checks) /\
    forall k c, nth_error (firstn 3 checks) k = Some c ->
      exists p,
        build_prompt E c = Ok p /\
        nth_error lines k =
          Some (suggestion_line E (fst p)
                  (answer E (List.length (posted s) + k))).
Proof.
  intros Hfile Hdec Hfailed Hshape.
  split; [|split].
  - intros messages s0.
    destruct (get_response_returns E messages s0) as (s1 & Hrun & _).
    now exists s1.
  - apply answer_of_failure.
  - destruct (advise_on_report_findings E s text report checks
                Hfile Hdec Hfailed Hshape)
      as (s' & reqs & header & lines & Hrun & _ & Hprinted & _ & Hlen & Hlines).
    exists s', header, lines. repeat split; assumption.
Qed.

Lemma advisory_failure_is_contained_witness :
  (forall messages s0, exists s1,
     get_response five_env messages s0
     = (Ok (answer five_env (List.length (posted s0))), s1)) /\
  (forall n, backend_fails five_env n -> answer five_env n = JStr GPT_ERROR) /\
  exists s' header lines,
    advise_on_report five_env (state_with_report (sample_report five_checks))
    = (Ok tt, s') /\
    printed s' =
      (printed (state_with_report (sample_report five_checks))
       ++ header :: lines)%list /\
    List.length lines = Nat.min 3 (List.length five_checks) /\
    forall k c, nth_error (firstn 3 five_checks) k = Some c ->
      exists p,
        build_prompt five_env c = Ok p /\
        nth_error lines k =
          Some (suggestion_line five_env (fst p)
                  (answer five_env
                     (List.length
                        (posted (state_with_report (sample_report five_checks)))
                      + k))).
Proof.
  apply (advisory_failure_is_contained five_env
           (state_with_report (sample_report five_checks))
           (dumps (sample_report five_checks))
           (sample_report five_checks) five_checks).
  - reflexivity.
  - vm_compute. reflexivity.
  - reflexivity.
  - exact five_checks_well_shaped.
Defined.

(** ** The tool wrappers *)

Lemma run_checkov_scan_exited (E : Env) (s : State) (rc : Z) (out : string) :
  process E (List.length (ran s)) = Exited rc out ->
  run_checkov_scan E s =
  (Ok (MSG_SCAN_DONE ++ "report.json"),
   set_report out (add_ran (checkov_command E) s)).
Proof.
  intros H. unfold run_checkov_scan, try_except, bind, subprocess_run.
  rewrite H. reflexivity.
Qed.

Lemma run_checkov_scan_not_started (E : Env) (s : State) (e : exn) :
  process E (List.length (ran s)) = NotStarted e ->
  run_checkov_scan E s =
  (if isinstance e SubprocessError then Ok (MSG_SCAN_ERROR ++ exn_str E e)
   else Raise e,
   add_ran (checkov_command E) s).
Proof.
  intros H. unfold run_checkov_scan, try_except, bind, subprocess_run.
  rewrite H. simpl. destruct (isinstance e SubprocessError); reflexivity.
Qed.

(** The scanner wrapper touches neither the conversation nor the
    requests nor the printed lines. *)
Lemma run_checkov_scan_frame (E : Env) (s s1 : State) (r : result string) :
  run_checkov_scan E s = (r, s1) ->
  chat_messages s1 = chat_messages s /\
  posted s1 = posted s /\
  printed s1 = printed s /\
  ran s1 = (ran s ++ [checkov_command E])%list.
Proof.
  destruct (process E (List.length (ran s))) as [rc out|e] eqn:Hp.
  - rewrite (run_checkov_scan_exited E s rc out Hp).
    intros H. injection H as _ <-. repeat split.
  - rewrite (run_checkov_scan_not_started E s e Hp).
    intros H. injection H as _ <-. repeat split.
Qed.

Lemma create_git_pr_docker_exited (E : Env) (github_token : string)
    (s : State) (rc : Z) (out : string) :
  process E (List.length (ran s)) = Exited rc out ->
  create_git_pr_docker E github_token s =
  (Ok (push_message E rc), add_ran (push_command E github_token) s).
Proof.
  intros H.
  unfold create_git_pr_docker, try_except, bind, subprocess_run, push_message.
  rewrite H. simpl. destruct (rc =? 0)%Z; reflexivity.
Qed.

Lemma create_git_pr_docker_not_started (E : Env) (github_token : string)
    (s : State) (e : exn) :
  process E (List.length (ran s)) = NotStarted e ->
  create_git_pr_docker E github_token s =
  (if isinstance e CalledProcessError then Ok (MSG_PR_ERROR ++ exn_str E e)
   else Raise e,
   add_ran (push_command E github_token) s).
Proof.
  intros H. unfold create_git_pr_docker, try_except, bind, subprocess_run.
  rewrite H. simpl. destruct (isinstance e CalledProcessError); reflexivity.
Qed.

(** The three Terraform wrappers return a message whatever the process
    does: any exit code, or no process at all. *)
Lemma check_terraform_fmt_returns (E : Env) (s : State) :
  exists message s', check_terraform_fmt E s = (Ok message, s').
Proof.
  unfold check_terraform_fmt, try_except, bind, subprocess_run.
  destruct (process E (List.length (ran s))); simpl; eexists; eexists;
    reflexivity.
Qed.

Lemma auto_terraform_fmt_returns (E : Env) (s : State) :
  exists message s', auto_terraform_fmt E s = (Ok message, s').
Proof.
  unfold auto_terraform_fmt, try_except, bind, subprocess_run.
  destruct (process E (List.length (ran s))); simpl; eexists; eexists;
    reflexivity.
Qed.

Lemma check_terraform_validate_returns (E : Env) (s : State) :
  exists message s', check_terraform_validate E s = (Ok message, s').
Proof.
  unfold check_terraform_validate, try_except, bind, subprocess_run.
  destruct (process E (List.length (ran s))); simpl;
    [|eexists; eexists; reflexivity].
  match goal with
  | |- context [process E ?n] => destruct (process E n)
  end; simpl; eexists; eexists; reflexivity.
Qed.

(** ** The turns of the loop *)

Lemma loop_body_scan (E : Env) (github_token raw : string) :
  normalise E raw = "scan" ->
  loop_body E github_token raw =
  (out <- run_checkov_scan E ;; print out ;;
   advise_on_report E ;; ret Continue).
Proof. intros H. unfold loop_body. rewrite H. reflexivity. Qed.

Lemma loop_body_pr (E : Env) (github_token raw : string) :
  normalise E raw = "pr" ->
  loop_body E github_token raw =
  (print MSG_CREATING_PR ;;
   pr_result <- create_git_pr_docker E github_token ;;
   print pr_result ;;
   print MSG_RERUNNING ;;
   scan_result <- run_checkov_scan E ;;
   print scan_result ;;
   verify_report E ;; ret Continue).
Proof. intros H. unfold loop_body. rewrite H. reflexivity. Qed.

(** From the report phase on, the turn is the phase followed by the
    jump back to [input]. *)
Lemma loop_body_from_report (E : Env) (github_token raw : string)
    (s : State) (out : string) (s1 : State) :
  scanned E github_token raw s out s1 ->
  loop_body E github_token raw s =
  ((if String.eqb (normalise E raw) "scan"
    then advise_on_report E else verify_report E) ;; ret Continue)
    (add_printed out s1).
Proof.
  intros [Hraw Hscan | pr_result s_pushed Hraw Hpush Hscan].
  - rewrite (loop_body_scan E github_token raw Hraw), Hraw.
    unfold bind at 1. rewrite Hscan. reflexivity.
  - rewrite (loop_body_pr E github_token raw Hraw), Hraw.
    unfold bind at 1. unfold print at 1.
    unfold bind at 1. rewrite Hpush.
    unfold bind at 1. unfold print at 1.
    unfold bind at 1. unfold print at 1.
    unfold bind at 1. rewrite Hscan. reflexivity.
Qed.

Lemma advise_on_report_missing (E : Env) (s : State) :
  report_json s = None -> advise_on_report E s = (Ok tt, s).
Proof.
  intros H. unfold advise_on_report, bind, report_exists. rewrite H. reflexivity.
Qed.

Lemma verify_report_missing (E : Env) (s : State) :
  report_json s = None -> verify_report E s = (Ok tt, s).
Proof.
  intros H. unfold verify_report, bind, report_exists. rewrite H. reflexivity.
Qed.

Lemma advise_on_report_rejected (E : Env) (s : State) (text : string) :
  report_json s = Some text ->
  json_loads E text = None ->
  advise_on_report E s = (Ok tt, add_printed MSG_PARSE_FAILED s).
Proof.
  intros Hfile Hdec. unfold advise_on_report, bind, report_exists.
  rewrite Hfile, (load_report_rejected E s text Hfile Hdec). reflexivity.
Qed.

Lemma verify_report_rejected (E : Env) (s : State) (text : string) :
  report_json s = Some text ->
  json_loads E text = None ->
  verify_report E s = (Ok tt, add_printed MSG_PARSE_FAILED s).
Proof.
  intros Hfile Hdec. unfold verify_report, bind, report_exists.
  rewrite Hfile, (load_report_rejected E s text Hfile Hdec). reflexivity.
Qed.

Lemma verify_report_findings (E : Env) (s : State) (text : string)
    (report : json) (checks : list json) :
  report_json s = Some text ->
  json_loads E text = Some report ->
  failed_checks report = Ok (JArr checks) ->
  verify_report E s = (Ok tt, add_printed (verdict checks) s).
Proof.
  intros Hfile Hdec Hfailed. unfold verify_report, bind, report_exists.
  rewrite Hfile, (load_report_decoded E s text report Hfile Hdec).
  unfold lift. rewrite Hfailed. destruct checks; reflexivity.
Qed.

(** The reverification phase runs no command, posts nothing and leaves
    the conversation alone, however it ends. *)
Lemma verify_report_frame (E : Env) (s s' : State) (r : result unit) :
  verify_report E s = (r, s') ->
  ran s' = ran s /\ posted s' = posted s /\
  chat_messages s' = chat_messages s /\
  exists more, printed s' = (printed s ++ more)%list.
Proof.
  destruct (report_json s) as [text|] eqn:Hfile.
  - destruct (json_loads E text) as [report|] eqn:Hdec.
    + unfold verify_report, bind, report_exists.
      rewrite Hfile, (load_report_decoded E s text report Hfile Hdec).
      unfold lift.
      destruct (failed_checks report) as [failed|e]; simpl.
      * destruct (truthy failed); simpl.
        -- destruct (py_len failed) as [n|e]; simpl;
             intros H; injection H as _ <-; repeat split;
             solve [ eexists; reflexivity
                   | exists []; now rewrite app_nil_r ].
        -- intros H; injection H as _ <-; repeat split.
           eexists; reflexivity.
      * intros H; injection H as _ <-; repeat split.
        exists []; now rewrite app_nil_r.
    + rewrite (verify_report_rejected E s text Hfile Hdec).
      intros H; injection H as _ <-; repeat split. eexists; reflexivity.
  - rewrite (verify_report_missing E s Hfile).
    intros H; injection H as _ <-; repeat split.
    exists []; now rewrite app_nil_r.
Qed.

(** C3 (as amended). Once the scanner's message is in hand, a report
    file that is present but not well-formed JSON makes the turn print
    the parse-failure message and go back to [input]: no verdict, no
    advisory call, no exception.  A report file that is missing is not
    parsed at all: the turn goes back to [input] having printed only the
    scanner's message.  Both hold for [scan] and for [pr]. *)
Theorem unreadable_report_ends_the_turn (E : Env) (github_token raw : string)
    (s : State) (out : string) (s1 : State) :
  scanned E github_token raw s out s1 ->
  (forall text,
     report_json s1 = Some text ->
     json_loads E text = None ->
     loop_body E github_token raw s =
     (Ok Continue, add_printed MSG_PARSE_FAILED (add_printed out s1))) /\
  (report_json s1 = None ->
   loop_body E github_token raw s = (Ok Continue, add_printed out s1)).
Proof.
  intros Hscanned.
  rewrite (loop_body_from_report E github_token raw s out s1 Hscanned).
  split.
  - intros text Hfile Hdec. unfold bind.
    destruct (String.eqb (normalise E raw) "scan").
    + rewrite (advise_on_report_rejected E (add_printed out s1) text Hfile Hdec).
      reflexivity.
    + rewrite (verify_report_rejected E (add_printed out s1) text Hfile Hdec).
      reflexivity.
  - intros Hfile. unfold bind.
    destruct (String.eqb (normalise E raw) "scan").
    + rewrite (advise_on_report_missing E (add_printed out s1) Hfile).
      reflexivity.
    + rewrite (verify_report_missing E (add_printed out s1) Hfile).
      reflexivity.
Qed.

Lemma unreadable_report_ends_the_turn_witness :
  let out := MSG_SCAN_DONE ++ "report.json" in
  let s1 := set_report EmptyString
              (add_ran (checkov_command silent_env) (initial_state None)) in
  let out' := MSG_SCAN_ERROR ++ "Bad exception data from child" in
  let s1' := add_ran (checkov_command broken_env) (initial_state None) in
  (scanned silent_env "token" "scan" (initial_state None) out s1 /\
   report_json s1 = Some EmptyString /\
   json_loads silent_env EmptyString = None /\
   loop_body silent_env "token" "scan" (initial_state None) =
   (Ok Continue, add_printed MSG_PARSE_FAILED (add_printed out s1))) /\
  (scanned broken_env "token" "scan" (initial_state None) out' s1' /\
   report_json s1' = None /\
   loop_body broken_env "token" "scan" (initial_state None)
   = (Ok Continue, add_printed out' s1')).
Proof.
  intros out s1 out' s1'.
  assert (H : scanned silent_env "token" "scan" (initial_state None) out s1)
    by (apply scanned_by_scan; reflexivity).
  assert (H' : scanned broken_env "token" "scan" (initial_state None) out' s1')
    by (apply scanned_by_scan; reflexivity).
  split.
  - split; [exact H|]. split; [reflexivity|]. split; [reflexivity|].
    apply (proj1 (unreadable_report_ends_the_turn silent_env "token" "scan"
                    (initial_state None) out s1 H) EmptyString);
      reflexivity.
  - split; [exact H'|]. split; [reflexivity|].
    apply (proj2 (unreadable_report_ends_the_turn broken_env "token" "scan"
                    (initial_state None) out' s1' H')).
    reflexivity.
Defined.

(** C3, as the specification words it, fails on a missing report file.
    When the scanner wrapper returns its error message without having
    written [report.json], the [scan] turn prints that message and
    nothing else: the parse-failure message of a malformed report is
    not among the printed lines.  The same turn with a report file that
    is present and empty does print it. *)
Lemma missing_report_is_skipped_silently :
  (exists s',
     loop_body broken_env "token" "scan" (initial_state None)
     = (Ok Continue, s') /\
     report_json s' = None /\
     printed s' = [MSG_SCAN_ERROR ++ "Bad exception data from child"] /\
     ~ In MSG_PARSE_FAILED (printed s')) /\
  (exists s',
     loop_body silent_env "token" "scan" (initial_state None)
     = (Ok Continue, s') /\
     report_json s' = Some EmptyString /\
     In MSG_PARSE_FAILED (printed s')).
Proof.
  split.
  - eexists. split; [vm_compute; reflexivity|].
    split; [reflexivity|]. split; [reflexivity|].
    intros [H|[]]. vm_compute in H. discriminate H.
  - eexists. split; [vm_compute; reflexivity|].
    split; [reflexivity|]. right. left. reflexivity.
Qed.

Lemma advise_on_report_empty (E : Env) (s : State) (text : string)
    (report : json) :
  report_json s = Some text ->
  json_loads E text = Some report ->
  failed_checks report = Ok (JArr []) ->
  advise_on_report E s = (Ok tt, add_printed MSG_NO_FAILED s).
Proof.
  intros Hfile Hdec Hfailed. unfold advise_on_report, bind, report_exists.
  rewrite Hfile, (load_report_decoded E s text report Hfile Hdec).
  unfold lift. rewrite Hfailed. reflexivity.
Qed.

Lemma failed_checks_absent_or_empty (fields : list (string * json)) :
  (lookup "results" fields = None \/
   exists results,
     lookup "results" fields = Some (JObj results) /\
     (lookup "failed_checks" results = None \/
      lookup "failed_checks" results = Some (JArr []))) ->
  failed_checks (JObj fields) = Ok (JArr []).
Proof.
  unfold failed_checks, dict_get. simpl.
  intros [H | (results & H & [H' | H'])]; rewrite H; simpl;
    try rewrite H'; reflexivity.
Qed.

(** C4. A report that is a JSON object without a [results] member, or
    whose [results] has no [failed_checks] member or an empty one,
    yields no finding: the [scan] turn prints the scanner's message and
    the no-failed-checks message, posts nothing to the model, leaves
    the conversation as it was and goes back to [input]. *)
Theorem empty_report_needs_no_advice (E : Env) (github_token raw : string)
    (s : State) (out : string) (s1 : State) (text : string)
    (fields : list (string * json)) :
  normalise E raw = "scan" ->
  run_checkov_scan E s = (Ok out, s1) ->
  report_json s1 = Some text ->
  json_loads E text = Some (JObj fields) ->
  (lookup "results" fields = None \/
   exists results,
     lookup "results" fields = Some (JObj results) /\
     (lookup "failed_checks" results = None \/
      lookup "failed_checks" results = Some (JArr []))) ->
  failed_checks (JObj fields) = Ok (JArr []) /\
  exists s',
    loop_body E github_token raw s = (Ok Continue, s') /\
    printed s' = (printed s ++ [out; MSG_NO_FAILED])%list /\
    posted s' = posted s /\
    chat_messages s' = chat_messages s.
Proof.
  intros Hraw Hscan Hfile Hdec Hshape.
  pose proof (failed_checks_absent_or_empty fields Hshape) as Hfailed.
  split; [exact Hfailed|].
  destruct (run_checkov_scan_frame E s s1 (Ok out) Hscan)
    as (Hchat & Hposted & Hprinted & _).
  exists (add_printed MSG_NO_FAILED (add_printed out s1)).
  split.
  - rewrite (loop_body_from_report E github_token raw s out s1
               (scanned_by_scan E github_token raw s out s1 Hraw Hscan)).
    rewrite Hraw. simpl String.eqb. unfold bind.
    rewrite (advise_on_report_empty E (add_printed out s1) text (JObj fields)
               Hfile Hdec Hfailed).
    reflexivity.
  - simpl. rewrite Hprinted, Hposted, Hchat, <- app_assoc.
    repeat split; reflexivity.
Qed.

Lemma empty_report_needs_no_advice_witness :
  let s1 := set_report (dumps (sample_report []))
              (add_ran (checkov_command clean_env) (initial_state None)) in
  let out := MSG_SCAN_DONE ++ "report.json" in
  failed_checks (sample_report []) = Ok (JArr []) /\
  exists s',
    loop_body clean_env "token" " Scan" (initial_state None)
    = (Ok Continue, s') /\
    printed s' = (printed (initial_state None) ++ [out; MSG_NO_FAILED])%list /\
    posted s' = posted (initial_state None) /\
    chat_messages s' = chat_messages (initial_state None).
Proof.
  intros s1 out.
  apply (empty_report_needs_no_advice clean_env "token" " Scan"
           (initial_state None) out s1 (dumps (sample_report []))).
  - reflexivity.
  - reflexivity.
  - reflexivity.
  - vm_compute. reflexivity.
  - right. eexists. split; [reflexivity|]. right. reflexivity.
Defined.

Lemma verdict_resolved_iff (checks : list json) :
  verdict checks = MSG_RESOLVED <-> checks = [].
Proof.
  split.
  - destruct checks as [|c cs]; [reflexivity|].
    intros H. vm_compute in H. discriminate H.
  - intros ->. reflexivity.
Qed.

(** X21. In a [pr] turn whose push process ran to its end, whatever its
    exit code: the outcome of the push is printed, and then the scanner
    is run, so the commands of the turn are the push and the scan, in
    that order, however the turn ends.  When the scan wrote a report
    whose failed checks are the list [checks], the turn ends normally
    and its last line is the verdict: resolved exactly when [checks] is
    empty, still-found otherwise.  The push message is a line of its
    own, before the verdict.  A push process that could not be started
    is not covered: see the next lemmas. *)
Theorem push_failure_does_not_stop_reverification (E : Env)
    (github_token raw : string) (s : State) (rc : Z) (out : string) :
  normalise E raw = "pr" ->
  process E (List.length (ran s)) = Exited rc out ->
  (exists more,
     ran (snd (loop_body E github_token raw s)) =
       (ran s ++ [push_command E github_token; checkov_command E])%list /\
     printed (snd (loop_body E github_token raw s)) =
       (printed s ++
          [MSG_CREATING_PR; push_message E rc; MSG_RERUNNING] ++ more)%list) /\
  (forall rc' text report checks,
     process E (S (List.length (ran s))) = Exited rc' text ->
     json_loads E text = Some report ->
     failed_checks report = Ok (JArr checks) ->
     exists s',
       loop_body E github_token raw s = (Ok Continue, s') /\
       printed s' =
         (printed s ++
            [MSG_CREATING_PR; push_message E rc; MSG_RERUNNING;
             (MSG_SCAN_DONE ++ "report.json")%string; verdict checks])%list /\
       (verdict checks = MSG_RESOLVED <-> checks = []) /\
       (verdict checks =
          MSG_STILL_FOUND ++ str_of_nat (List.length checks)
          ++ MSG_STILL_FOUND_TAIL
        <-> checks <> [])).
Proof.
  intros Hraw Hpush.
  set (s0 := add_printed MSG_CREATING_PR s).
  set (sp := add_ran (push_command E github_token) s0).
  set (sr := add_printed MSG_RERUNNING (add_printed (push_message E rc) sp)).
  assert (Hpr : create_git_pr_docker E github_token s0
                = (Ok (push_message E rc), sp))
    by (apply (create_git_pr_docker_exited E github_token s0 rc out);
        exact Hpush).
  assert (Hbody : loop_body E github_token raw s =
            (scan_result <- run_checkov_scan E ;;
             print scan_result ;; verify_report E ;; ret Continue) sr).
  { rewrite (loop_body_pr E github_token raw Hraw).
    unfold bind at 1. unfold print at 1.
    unfold bind at 1. fold s0. rewrite Hpr. reflexivity. }
  split.
  - assert (exists r s2 more,
              (scan_result <- run_checkov_scan E ;;
               print scan_result ;; verify_report E ;; ret Continue) sr
              = (r, s2) /\
              ran s2 = (ran s ++ [push_command E github_token;
                                  checkov_command E])%list /\
              printed s2 = (printed s ++
                [MSG_CREATING_PR; push_message E rc; MSG_RERUNNING]
                ++ more)%list) as (r & s2 & more & Hrun & Hr & Hp).
    { unfold bind at 1.
      destruct (run_checkov_scan E sr) as [r s1] eqn:Hscan.
      destruct (run_checkov_scan_frame E sr s1 r Hscan)
        as (_ & _ & Hprinted & Hran).
      destruct r as [msg|e].
      - unfold bind at 1. unfold print at 1. unfold bind.
        destruct (verify_report E (add_printed msg s1)) as [r' s2] eqn:Hver.
        destruct (verify_report_frame E _ s2 r' Hver)
          as (Hran2 & _ & _ & more & Hprinted2).
        exists (match r' with Ok _ => Ok Continue | Raise e => Raise e end),
          s2, (msg :: more).
        split; [destruct r'; reflexivity|]. split.
        + rewrite Hran2. simpl. rewrite Hran. subst sr sp s0. simpl.
          now rewrite <- app_assoc.
        + rewrite Hprinted2. simpl. rewrite Hprinted. subst sr sp s0. simpl.
          now rewrite <- !app_assoc.
      - exists (Raise e), s1, []. split; [reflexivity|].
        rewrite Hran, Hprinted. subst sr sp s0. simpl.
        rewrite <- !app_assoc. split; reflexivity. }
    exists more. rewrite Hbody, Hrun. simpl. split; assumption.
  - intros rc' text report checks Hscan Hdec Hfailed.
    assert (Hrun : run_checkov_scan E sr =
                   (Ok (MSG_SCAN_DONE ++ "report.json"),
                    set_report text (add_ran (checkov_command E) sr))).
    { apply (run_checkov_scan_exited E sr rc' text).
      subst sr sp s0. simpl. rewrite length_app. simpl.
      now rewrite Nat.add_1_r. }
    eexists. split; [|split; [|split]].
    + rewrite Hbody. unfold bind at 1. rewrite Hrun.
      unfold bind at 1. unfold print at 1. unfold bind.
      erewrite (verify_report_findings E _ text report checks);
        [reflexivity|reflexivity|exact Hdec|exact Hfailed].
    + subst sr sp s0. simpl. rewrite <- !app_assoc. reflexivity.
    + apply verdict_resolved_iff.
    + split.
      * intros H Hnil. subst checks. vm_compute in H. discriminate H.
      * destruct checks; [congruence|reflexivity].
Qed.

Lemma push_failure_does_not_stop_reverification_witness :
  (exists more,
     ran (snd (loop_body rejected_push_env "token" "pr" (initial_state None))) =
       (ran (initial_state None) ++
          [push_command rejected_push_env "token";
           checkov_command rejected_push_env])%list /\
     printed (snd (loop_body rejected_push_env "token" "pr" (initial_state None))) =
       (printed (initial_state None) ++
          [MSG_CREATING_PR; push_message rejected_push_env 128; MSG_RERUNNING]
          ++ more)%list) /\
  exists s',
    loop_body rejected_push_env "token" "pr" (initial_state None)
    = (Ok Continue, s') /\
    printed s' =
      (printed (initial_state None) ++
         [MSG_CREATING_PR; push_message rejected_push_env 128; MSG_RERUNNING;
          (MSG_SCAN_DONE ++ "report.json")%string; verdict five_checks])%list /\
    (verdict five_checks = MSG_RESOLVED <-> five_checks = []) /\
    (verdict five_checks =
       MSG_STILL_FOUND ++ str_of_nat (List.length five_checks)
       ++ MSG_STILL_FOUND_TAIL
     <-> five_checks <> []).
Proof.
  destruct (push_failure_does_not_stop_reverification rejected_push_env
              "token" "pr" (initial_state None) 128 EmptyString
              eq_refl eq_refl) as [Hran Hverdict].
  split; [exact Hran|].
  apply (Hverdict 1%Z (dumps (sample_report five_checks))
           (sample_report five_checks) five_checks).
  - reflexivity.
  - vm_compute. reflexivity.
  - reflexivity.
Defined.

(** A push that cannot be started is another matter.  The wrapper
    catches [CalledProcessError] only (line 128), so any other
    exception of [subprocess.run] leaves the [pr] turn right after the
    first line is printed: the push is the one command of the turn, no
    scan follows it and no verdict is printed. *)
Lemma push_launch_failure_escapes (E : Env) (github_token raw : string)
    (s : State) (e : exn) :
  normalise E raw = "pr" ->
  process E (List.length (ran s)) = NotStarted e ->
  isinstance e CalledProcessError = false ->
  loop_body E github_token raw s
  = (Raise e,
     add_ran (push_command E github_token) (add_printed MSG_CREATING_PR s)).
Proof.
  intros Hraw Hproc Hcls.
  rewrite (loop_body_pr E github_token raw Hraw).
  unfold bind at 1. unfold print at 1. unfold bind at 1.
  rewrite (create_git_pr_docker_not_started E github_token
             (add_printed MSG_CREATING_PR s) e Hproc), Hcls.
  reflexivity.
Qed.

(** C5, at the input on which the code departs from it.  The user types
    [pr] on a machine without a [docker] executable, a scan of five
    findings on disk.  [subprocess.run] raises [FileNotFoundError],
    which [except subprocess.CalledProcessError] does not catch: the
    turn ends in that exception after its first line, the push failure
    is not reported by the program, the reverification scan is not run,
    the report on disk is the old one and no verdict is printed; the
    program ends, the [exit] typed next is not read.  Where the push
    process runs and fails (exit code 128) the failure is printed and
    the scan is run. *)
Lemma push_launch_failure_skips_reverification :
  let s := state_with_report (sample_report five_checks) in
  let turn := loop_body offline_env "token" "pr" s in
  (fst turn = Raise no_docker /\
   ran (snd turn) = (ran s ++ [push_command offline_env "token"])%list /\
   ~ In (checkov_command offline_env) (ran (snd turn)) /\
   printed (snd turn) = (printed s ++ [MSG_CREATING_PR])%list /\
   report_json (snd turn) = report_json s) /\
  main_loop offline_env "token" ["pr"; "exit"] s = (Raise no_docker, snd turn) /\
  ran (snd (loop_body rejected_push_env "token" "pr" s))
  = (ran s ++ [push_command rejected_push_env "token";
               checkov_command rejected_push_env])%list.
Proof.
  cbv zeta. split; [|split; vm_compute; reflexivity].
  split; [vm_compute; reflexivity|].
  split; [vm_compute; reflexivity|].
  split; [|split; vm_compute; reflexivity].
  intros Hin.
  assert (Hran : ran (snd (loop_body offline_env "token" "pr"
                             (state_with_report (sample_report five_checks))))
                 = [push_command offline_env "token"])
    by (vm_compute; reflexivity).
  rewrite Hran in Hin. destruct Hin as [Heq|[]].
  apply (f_equal (fun c => List.length (argv c))) in Heq.
  vm_compute in Heq. discriminate Heq.
Qed.

(** C6, at the input on which the code departs from it.  With no
    [docker] executable, [subprocess.run] raises [FileNotFoundError].
    The scanner wrapper catches [SubprocessError] only and the push
    wrapper [CalledProcessError] only, so on [scan] and on [pr] the
    exception leaves [main_loop]: the program ends, the [exit] typed
    next is never read.  The three Terraform wrappers catch
    [Exception]: without a [terraform] executable each of them returns
    an error message and the loop goes on to [exit]. *)
Lemma launch_failure_of_docker_ends_main :
  main_loop offline_env "token" ["scan"; "exit"] (initial_state None)
  = (Raise no_docker,
     add_ran (checkov_command offline_env) (initial_state None)) /\
  main_loop offline_env "token" ["pr"; "exit"] (initial_state None)
  = (Raise no_docker,
     add_ran (push_command offline_env "token")
       (add_printed MSG_CREATING_PR (initial_state None))) /\
  exists s',
    main_loop no_terraform_env "token" ["fmt"; "auto_fmt"; "validate"; "exit"]
      (initial_state None) = (Ok tt, s') /\
    printed s' =
      [MSG_FMT_ERROR ++ exn_info (not_found "terraform");
       MSG_FMT_ERROR ++ exn_info (not_found "terraform");
       MSG_VALIDATE_ERROR ++ exn_info (not_found "terraform")].
Proof.
  split; [vm_compute; reflexivity|].
  split; [vm_compute; reflexivity|].
  eexists. split; vm_compute; reflexivity.
Qed.

(** The same departure for every environment: a launch failure that is
    not a [SubprocessError] leaves the [scan] turn as an exception. *)
Lemma scan_launch_failure_escapes (E : Env) (github_token raw : string)
    (s : State) (e : exn) :
  normalise E raw = "scan" ->
  process E (List.length (ran s)) = NotStarted e ->
  isinstance e SubprocessError = false ->
  loop_body E github_token raw s = (Raise e, add_ran (checkov_command E) s).
Proof.
  intros Hraw Hproc Hcls.
  rewrite (loop_body_scan E github_token raw Hraw).
  unfold bind at 1.
  rewrite (run_checkov_scan_not_started E s e Hproc), Hcls. reflexivity.
Qed.

(** ** The prompt *)

Lemma append_assoc (a b c : string) : ((a ++ b) ++ c = a ++ (b ++ c))%string.
Proof.
  induction a as [|x a IH]; [reflexivity|].
  simpl. now rewrite IH.
Qed.

Lemma rmap_line_texts (block : list (json * string)) :
  rmap (fun line => subscript_int line 1)
    (map (fun p => JArr [fst p; JStr (snd p)]) block)
  = Ok (map (fun p => JStr (snd p)) block).
Proof.
  induction block as [|p block IH]; [reflexivity|].
  simpl. rewrite IH. reflexivity.
Qed.

Lemma str_join_texts (sep : string) (block : list (json * string)) :
  str_join sep (map (fun p => JStr (snd p)) block)
  = Ok (join sep (map snd block)).
Proof.
  unfold str_join.
  assert (H : rmap as_str (map (fun p : json * string => JStr (snd p)) block)
              = Ok (map snd block)).
  { induction block as [|p block IH]; [reflexivity|].
    simpl. rewrite IH. reflexivity. }
  rewrite H. reflexivity.
Qed.

(** C8. For a finding whose four descriptive fields are strings and
    whose [code_block] is a list of [line number, line text] pairs, the
    prompt is the fixed template filled with [check_name], [check_id],
    [resource], [file_path] and the line texts joined by a newline, in
    their order, each text as it stands; the line numbers do not occur.
    That prompt is the user message appended and posted. *)
Theorem prompt_is_built_from_the_finding (E : Env)
    (fields : list (string * json))
    (check_name check_id resource file_path : string)
    (block : list (json * string)) :
  lookup "check_name" fields = Some (JStr check_name) ->
  lookup "check_id" fields = Some (JStr check_id) ->
  lookup "resource" fields = Some (JStr resource) ->
  lookup "file_path" fields = Some (JStr file_path) ->
  lookup "code_block" fields
  = Some (JArr (map (fun p => JArr [fst p; JStr (snd p)]) block)) ->
  let prompt :=
    PROMPT_HEAD ++ check_name ++ " (" ++ check_id ++ ")" ++ nl
    ++ "* Resource: " ++ resource ++ nl
    ++ "* File: " ++ file_path ++ nl ++ nl
    ++ "Code Block:" ++ nl ++ nl
    ++ join nl (map snd block) ++ PROMPT_TAIL in
  build_prompt E (JObj fields) = Ok (JStr check_id, prompt) /\
  forall s, exists s',
    advise E (JObj fields) s = (Ok tt, s') /\
    posted s' = (posted s ++ [chat_messages s ++ [user_message prompt]])%list /\
    nth_error (chat_messages s') (List.length (chat_messages s))
    = Some (user_message prompt).
Proof.
  intros Hname Hid Hres Hpath Hblock prompt.
  assert (Hp : build_prompt E (JObj fields) = Ok (JStr check_id, prompt)).
  { unfold build_prompt, dict_get.
    rewrite Hname, Hid, Hres, Hpath, Hblock. simpl.
    rewrite rmap_line_texts. simpl.
    rewrite str_join_texts. simpl.
    unfold advisory_prompt, prompt. simpl py_str.
    unfold PROMPT_ID, PROMPT_RESOURCE, PROMPT_FILE, PROMPT_CODE.
    rewrite !append_assoc. reflexivity. }
  split; [exact Hp|].
  intros s.
  destruct (advise_spec E (JObj fields) (JStr check_id) prompt s Hp)
    as (s' & Hrun & Hchat & Hposted & _).
  exists s'. repeat split; try assumption.
  rewrite Hchat, nth_error_app2, Nat.sub_diag by apply Nat.le_refl.
  reflexivity.
Qed.

Lemma prompt_is_built_from_the_finding_witness :
  let prompt :=
    PROMPT_HEAD ++ "Ensure the S3 bucket has server-side encryption"
    ++ " (" ++ "CKV_AWS_18" ++ ")" ++ nl
    ++ "* Resource: " ++ "aws_s3_bucket.data" ++ nl
    ++ "* File: " ++ "/main.tf" ++ nl ++ nl
    ++ "Code Block:" ++ nl ++ nl
    ++ join nl (map snd sample_block) ++ PROMPT_TAIL in
  build_prompt five_env (JObj (sample_fields 18)) = Ok (JStr "CKV_AWS_18", prompt) /\
  forall s, exists s',
    advise five_env (JObj (sample_fields 18)) s = (Ok tt, s') /\
    posted s' = (posted s ++ [chat_messages s ++ [user_message prompt]])%list /\
    nth_error (chat_messages s') (List.length (chat_messages s))
    = Some (user_message prompt).
Proof.
  apply (prompt_is_built_from_the_finding five_env (sample_fields 18)
           "Ensure the S3 bucket has server-side encryption" "CKV_AWS_18"
           "aws_s3_bucket.data" "/main.tf" sample_block);
    reflexivity.
Defined.

Lemma py_str_env (E1 E2 : Env) :
  (forall v, py_repr E1 v = py_repr E2 v) ->
  forall v, py_str E1 v = py_str E2 v.
Proof.
  intros H v. destruct v as [|[]| | | |]; simpl; auto.
Qed.

(** The prompt depends on the environment through [repr] only. *)
Lemma build_prompt_env (E1 E2 : Env) (check : json) :
  (forall v, py_repr E1 v = py_repr E2 v) ->
  build_prompt E1 check = build_prompt E2 check.
Proof.
  intros H. pose proof (py_str_env E1 E2 H) as Hs.
  unfold build_prompt.
  repeat match goal with
         | |- rbind ?r _ = rbind ?r _ => destruct r; simpl; [|reflexivity]
         end.
  unfold advisory_prompt. now rewrite !Hs.
Qed.

(** C9. The request an advisory step posts is the conversation it
    starts from followed by the prompt, and the prompt is a function of
    the finding: two attempts on the same finding from the same
    conversation post the same request, whatever was posted, printed or
    answered before, and whatever the backend and the processes do. *)
Theorem prompt_depends_on_finding_only (E1 E2 : Env) (check : json)
    (p : json * string) (s1 s2 : State) :
  (forall v, py_repr E1 v = py_repr E2 v) ->
  build_prompt E1 check = Ok p ->
  chat_messages s1 = chat_messages s2 ->
  build_prompt E2 check = Ok p /\
  exists s1' s2',
    advise E1 check s1 = (Ok tt, s1') /\
    advise E2 check s2 = (Ok tt, s2') /\
    List.last (posted s1') [] =
      (chat_messages s1 ++ [user_message (snd p)])%list /\
    List.last (posted s2') [] = List.last (posted s1') [].
Proof.
  intros Hrepr Hp Hchat.
  assert (Hp2 : build_prompt E2 check = Ok p)
    by (rewrite <- (build_prompt_env E1 E2 check Hrepr); exact Hp).
  split; [exact Hp2|].
  destruct p as [cid prompt].
  destruct (advise_spec E1 check cid prompt s1 Hp)
    as (s1' & Hrun1 & _ & Hposted1 & _).
  destruct (advise_spec E2 check cid prompt s2 Hp2)
    as (s2' & Hrun2 & _ & Hposted2 & _).
  exists s1', s2'.
  rewrite Hposted1, Hposted2, !last_last, Hchat.
  repeat split; assumption.
Qed.

Lemma prompt_depends_on_finding_only_witness :
  exists p,
    build_prompt five_env (sample_check 18) = Ok p /\
    build_prompt offline_env (sample_check 18) = Ok p /\
    exists s1' s2',
      advise five_env (sample_check 18) (initial_state None) = (Ok tt, s1') /\
      advise offline_env (sample_check 18)
        (add_posted [] (add_printed "retry" (initial_state None)))
      = (Ok tt, s2') /\
      List.last (posted s1') [] =
        (chat_messages (initial_state None) ++ [user_message (snd p)])%list /\
      List.last (posted s2') [] = List.last (posted s1') [].
Proof.
  eexists. split; [vm_compute; reflexivity|].
  apply (prompt_depends_on_finding_only five_env offline_env
           (sample_check 18) _
           (initial_state None)
           (add_posted [] (add_printed "retry" (initial_state None)))).
  - reflexivity.
  - vm_compute. reflexivity.
  - reflexivity.
Defined.

(** ** The line typed *)

Lemma string_length_ind (P : string -> Prop) :
  (forall s, (forall t, String.length t < String.length s -> P t) -> P s) ->
  forall s, P s.
Proof.
  intros Hstep.
  assert (G : forall n s, String.length s < n -> P s).
  { induction n as [|n IH]; intros s Hlen; [lia|].
    apply Hstep. intros t Ht. apply IH. lia. }
  intros s. apply (G (S (String.length s))). lia.
Qed.

Lemma lstrip_unfold (s : string) :
  lstrip s = match space_head s with Some r => lstrip r | None => s end.
Proof.
  destruct s as [|a s1]; [reflexivity|]. cbn [lstrip space_head].
  destruct (isspace a); [reflexivity|].
  destruct s1 as [|b s2]; [reflexivity|].
  destruct (isspace2 a b); [reflexivity|].
  destruct s2 as [|c s3]; [reflexivity|].
  destruct (isspace3 a b c); reflexivity.
Qed.

Lemma blank_unfold (s : string) :
  blank s =
  match s with
  | EmptyString => true
  | _ => match space_head s with Some r => blank r | None => false end
  end.
Proof.
  destruct s as [|a s1]; [reflexivity|]. cbn [blank space_head].
  destruct (isspace a); [reflexivity|].
  destruct s1 as [|b s2]; [reflexivity|].
  destruct (isspace2 a b); [reflexivity|].
  destruct s2 as [|c s3]; [reflexivity|].
  destruct (isspace3 a b c); reflexivity.
Qed.

(** What follows the leading space is a proper end of the string. *)
Lemma space_head_suffix (s r : string) :
  space_head s = Some r ->
  exists pre, s = pre ++ r /\ 0 < String.length pre.
Proof.
  destruct s as [|a s1]; [discriminate|]. cbn [space_head].
  destruct (isspace a).
  { intros H. injection H as <-.
    exists (String a EmptyString). split; [reflexivity|simpl; lia]. }
  destruct s1 as [|b s2]; [discriminate|].
  destruct (isspace2 a b).
  { intros H. injection H as <-.
    exists (String a (String b EmptyString)). split; [reflexivity|simpl; lia]. }
  destruct s2 as [|c s3]; [discriminate|].
  destruct (isspace3 a b c); [|discriminate].
  intros H. injection H as <-.
  exists (String a (String b (String c EmptyString))).
  split; [reflexivity|simpl; lia].
Qed.

Lemma length_append (a b : string) :
  String.length (a ++ b) = String.length a + String.length b.
Proof. induction a as [|x a IH]; [reflexivity|]. simpl. now rewrite IH. Qed.

Lemma space_head_shorter (s r : string) :
  space_head s = Some r -> String.length r < String.length s.
Proof.
  intros H. destruct (space_head_suffix s r H) as (pre & -> & Hpre).
  rewrite length_append. lia.
Qed.

Lemma is_ascii_append (a b : string) :
  is_ascii (a ++ b) = is_ascii a && is_ascii b.
Proof.
  induction a as [|x a IH]; [reflexivity|].
  simpl. now rewrite IH, andb_assoc.
Qed.

Lemma is_ascii_lstrip (s : string) :
  is_ascii s = true -> is_ascii (lstrip s) = true.
Proof.
  induction s as [s IH] using string_length_ind. intros Hs.
  rewrite lstrip_unfold. destruct (space_head s) as [r|] eqn:Hhead; [|exact Hs].
  apply IH; [exact (space_head_shorter s r Hhead)|].
  destruct (space_head_suffix s r Hhead) as (pre & -> & _).
  rewrite is_ascii_append in Hs. apply andb_prop in Hs. tauto.
Qed.

Lemma lstrip_blank (s : string) : blank s = true -> lstrip s = EmptyString.
Proof.
  induction s as [s IH] using string_length_ind. intros Hs.
  rewrite lstrip_unfold. rewrite blank_unfold in Hs.
  destruct s as [|a s1]; [reflexivity|].
  destruct (space_head (String a s1)) as [r|] eqn:Hhead; [|discriminate Hs].
  exact (IH r (space_head_shorter _ r Hhead) Hs).
Qed.

Lemma blank_lstrip (s : string) : blank (lstrip s) = blank s.
Proof.
  induction s as [s IH] using string_length_ind.
  rewrite lstrip_unfold.
  destruct (space_head s) as [r|] eqn:Hhead; [|reflexivity].
  rewrite (IH r (space_head_shorter s r Hhead)).
  rewrite (blank_unfold s), Hhead.
  destruct s; [discriminate Hhead|reflexivity].
Qed.

Lemma rstrip_empty (s : string) :
  String.eqb (rstrip s) EmptyString = blank s.
Proof.
  destruct s as [|a s]; [reflexivity|].
  cbn [rstrip]. destruct (blank (String a s)); reflexivity.
Qed.

(** [strip] leaves nothing exactly of the blank strings. *)
Lemma lstrip_empty_iff_blank (s : string) :
  String.eqb (strip s) EmptyString = blank s.
Proof. unfold strip. now rewrite rstrip_empty, blank_lstrip. Qed.

Lemma is_ascii_rstrip (s : string) :
  is_ascii s = true -> is_ascii (rstrip s) = true.
Proof.
  induction s as [|a s IH]; [reflexivity|].
  intros H. cbn [rstrip]. destruct (blank (String a s)); [reflexivity|].
  cbn [is_ascii] in H |- *. apply andb_prop in H. destruct H as [Ha Hs].
  now rewrite Ha, (IH Hs).
Qed.

Lemma is_ascii_strip (s : string) :
  is_ascii s = true -> is_ascii (strip s) = true.
Proof.
  intros H. unfold strip. exact (is_ascii_rstrip _ (is_ascii_lstrip s H)).
Qed.

(** When what the spaces enclose is ASCII the normal form is computed:
    the line stripped, its capitals lowered, whatever the environment. *)
Lemma normalise_ascii (E : Env) (raw : string) :
  is_ascii (strip raw) = true -> normalise E raw = lower (strip raw).
Proof. intros H. unfold normalise, str_lower. now rewrite H. Qed.

(** Otherwise it is the environment's [str.lower] of the line stripped. *)
Lemma normalise_beyond_ascii (E : Env) (raw : string) :
  is_ascii (strip raw) = false ->
  normalise E raw = unicode_lower E (strip raw).
Proof. intros H. unfold normalise, str_lower. now rewrite H. Qed.

(** A command word is its own normal form. *)
Lemma normalise_command (E : Env) (word : string) :
  is_command word = true -> normalise E word = word.
Proof.
  unfold is_command. intros H.
  repeat (apply orb_prop in H; destruct H as [H|H]);
    apply String.eqb_eq in H; subst word; reflexivity.
Qed.

(** The fall-through branch of the loop (lines 238-242). *)
Lemma loop_body_free_text (E : Env) (github_token raw : string) (s : State) :
  is_command (normalise E raw) = false ->
  exists s',
    loop_body E github_token raw s = (Ok Continue, s') /\
    posted s' =
      (posted s ++
         [chat_messages s ++ [user_message (normalise E raw)]])%list /\
    chat_messages s' =
      (chat_messages s ++
         [user_message (normalise E raw);
          assistant_message (answer E (List.length (posted s)))])%list /\
    printed s' =
      (printed s ++
         [(MSG_GPT ++ py_str E (answer E (List.length (posted s))) ++ nl)%string])%list.
Proof.
  unfold is_command. intros H.
  repeat (apply orb_false_elim in H; destruct H as [H ?]).
  unfold loop_body.
  repeat match goal with
         | Heq : String.eqb _ _ = false |- _ => rewrite Heq; clear Heq
         end.
  unfold bind, append_message, get_chat_messages.
  rewrite get_response_eq. unfold answer. simpl.
  destruct (reply_of E (backend E (List.length (posted s)))); simpl;
    eexists; (split; [reflexivity|]); simpl;
    rewrite <- app_assoc; repeat split; reflexivity.
Qed.

(** C10. The loop reads the typed line only through its normal form,
    the line stripped of the spaces around it ([str.strip], ASCII and
    other spaces alike) and lowercased ([str.lower]).  A line whose
    normal form is a command word takes the same turn as the word
    itself, so the command words are recognised whatever their case
    and the spaces around them.  When what the spaces enclose is ASCII
    the normal form is that text with its capitals lowered; otherwise
    it is [str.lower] of that text.  A line that is no command word is
    appended to the conversation, and posted to the model as the last
    message of the request, in its normal form, not as it was typed. *)
Theorem typed_line_is_stripped_and_lowercased (E : Env)
    (github_token raw : string) (s : State) :
  (is_command (normalise E raw) = true ->
   loop_body E github_token raw s
   = loop_body E github_token (normalise E raw) s) /\
  (is_ascii (strip raw) = true -> normalise E raw = lower (strip raw)) /\
  (is_ascii (strip raw) = false ->
   normalise E raw = unicode_lower E (strip raw)) /\
  (is_command (normalise E raw) = false ->
   exists s',
     loop_body E github_token raw s = (Ok Continue, s') /\
     posted s' =
       (posted s ++
          [chat_messages s ++ [user_message (normalise E raw)]])%list /\
     chat_messages s' =
       (chat_messages s ++
          [user_message (normalise E raw);
           assistant_message (answer E (List.length (posted s)))])%list).
Proof.
  split; [|split; [|split]].
  - intros H. unfold loop_body.
    now rewrite (normalise_command E (normalise E raw) H).
  - apply normalise_ascii.
  - apply normalise_beyond_ascii.
  - intros H.
    destruct (loop_body_free_text E github_token raw s H)
      as (s' & Hrun & Hposted & Hchat & _).
    exists s'. repeat split; assumption.
Qed.

Lemma typed_line_is_stripped_and_lowercased_witness :
  let raw := (nbsp ++ " Why is ACL public-read Risky? ")%string in
  let sent := "why is acl public-read risky?" in
  let shout := ("  SCAN" ++ em_space)%string in
  let accented := " ÉCOLE " in
  (is_command (normalise five_env shout) = true /\
   normalise five_env shout = "scan" /\
   loop_body five_env "token" shout (initial_state None)
   = loop_body five_env "token" "scan" (initial_state None)) /\
  (is_ascii (strip raw) = true /\ normalise five_env raw = lower (strip raw) /\
   lower (strip raw) = sent) /\
  (is_ascii (strip accented) = false /\
   normalise five_env accented = unicode_lower five_env (strip accented) /\
   strip accented = "ÉCOLE") /\
  is_command (normalise five_env raw) = false /\
  exists s',
    loop_body five_env "token" raw (initial_state None) = (Ok Continue, s') /\
    posted s' =
      (posted (initial_state None) ++
         [chat_messages (initial_state None) ++ [user_message sent]])%list /\
    chat_messages s' =
      (chat_messages (initial_state None) ++
         [user_message sent;
          assistant_message
            (answer five_env (List.length (posted (initial_state None))))])%list.
Proof.
  intros raw sent shout accented.
  destruct (typed_line_is_stripped_and_lowercased five_env "token" shout
              (initial_state None)) as [Hword _].
  destruct (typed_line_is_stripped_and_lowercased five_env "token" raw
              (initial_state None)) as [_ [Hascii [_ Hfree]]].
  destruct (typed_line_is_stripped_and_lowercased five_env "token" accented
              (initial_state None)) as [_ [_ [Hbeyond _]]].
  split; [split; [reflexivity|split; [reflexivity|apply Hword; reflexivity]]|].
  split; [split; [reflexivity|split; [apply Hascii; reflexivity|reflexivity]]|].
  split; [split; [reflexivity|split; [apply Hbeyond; reflexivity|reflexivity]]|].
  split; [reflexivity|]. apply Hfree. reflexivity.
Defined.

(** The spaces that are not ASCII are stripped like the others: a
    command word between them, in any case, is the command. *)
Lemma normalise_between_spaces (E : Env) :
  normalise E (nbsp ++ "Exit" ++ em_space) = "exit" /\
  normalise E (nbsp ++ "scan") = "scan" /\
  normalise E ("  PR " ++ nbsp ++ nl) = "pr" /\
  normalise E (nbsp ++ em_space) = EmptyString.
Proof. repeat split; reflexivity. Qed.

Lemma exit_in_any_case (E : Env) (github_token : string) (s : State) :
  loop_body E github_token "  ExIt " s = (Ok Break, s) /\
  loop_body E github_token (nbsp ++ "exit" ++ em_space) s = (Ok Break, s) /\
  main_loop E github_token [(nbsp ++ "EXIT")%string; "scan"] s = (Ok tt, s).
Proof. repeat split; reflexivity. Qed.

(** A no-break space before [scan] does not hide the command: the
    scanner is run and the report file rewritten. *)
Lemma scan_after_no_break_space :
  let run := loop_body five_env "token" (nbsp ++ "scan") (initial_state None) in
  fst run = Ok Continue /\
  ran (snd run) = [checkov_command five_env] /\
  report_json (snd run) = Some (dumps (sample_report five_checks)).
Proof. vm_compute. repeat split; reflexivity. Qed.

(** A line in capitals beyond ASCII is sent as [str.lower] gives it, the
    spaces around it stripped. *)
Lemma accented_line_is_lowered :
  normalise five_env " ÉCOLE " = "école" /\
  exists s',
    loop_body five_env "token" (nbsp ++ "ÉCOLE ") (initial_state None)
    = (Ok Continue, s') /\
    posted s' =
      [chat_messages (initial_state None) ++ [user_message "école"]]%list.
Proof.
  split; [reflexivity|]. eexists. split; vm_compute; reflexivity.
Qed.

(** ** Two runs, end to end *)

(** Five findings, the second advisory call fails: three suggestions are
    printed, the second one the sentinel text, and the loop ends on
    [exit]. *)
Example run_five_findings :
  let run := main_loop five_env "token" ["scan"; "exit"] (initial_state None) in
  fst run = Ok tt /\
  printed (snd run) =
    [ MSG_SCAN_DONE ++ "report.json";
      MSG_FOUND ++ "5" ++ MSG_FOUND_TAIL;
      MSG_SUGGESTION ++ "CKV_AWS_18:" ++ nl ++ "Enable encryption." ++ nl;
      MSG_SUGGESTION ++ "CKV_AWS_19:" ++ nl ++ GPT_ERROR ++ nl;
      MSG_SUGGESTION ++ "CKV_AWS_20:" ++ nl ++ "Enable encryption." ++ nl ] /\
  List.length (posted (snd run)) = 3 /\
  List.length (chat_messages (snd run)) = 7.
Proof. vm_compute. repeat split; reflexivity. Qed.

(** A rejected push, then a scan that still finds five issues. *)
Example run_rejected_push :
  let run := main_loop rejected_push_env "token" ["PR"; "exit"]
               (initial_state None) in
  fst run = Ok tt /\
  printed (snd run) =
    [ MSG_CREATING_PR;
      MSG_PR_ERROR ++ "128";
      MSG_RERUNNING;
      MSG_SCAN_DONE ++ "report.json";
      MSG_STILL_FOUND ++ "5" ++ MSG_STILL_FOUND_TAIL ] /\
  posted (snd run) = [].
Proof. vm_compute. repeat split; reflexivity. Qed.

(** ** What every turn keeps *)

Section Keeping.

Context (R : State -> State -> Prop) `{Frame R}.

Lemma keeps_ret {A} (a : A) : keeps R (ret a).
Proof. intros s r s' Heq. injection Heq as _ <-. apply frame_refl. Qed.

Lemma keeps_raise {A} (e : exn) : keeps R (@raise A e).
Proof. intros s r s' Heq. injection Heq as _ <-. apply frame_refl. Qed.

Lemma keeps_lift {A} (x : result A) : keeps R (lift x).
Proof. intros s r s' Heq. injection Heq as _ <-. apply frame_refl. Qed.

Lemma keeps_bind {A B} (c : M A) (k : A -> M B) :
  keeps R c -> (forall a, keeps R (k a)) -> keeps R (bind c k).
Proof.
  intros Hc Hk s r s' Heq. unfold bind in Heq.
  destruct (c s) as [[a|e] s1] eqn:Hcs.
  - apply (frame_trans s s1 s'); [exact (Hc s _ s1 Hcs)|].
    exact (Hk a s1 r s' Heq).
  - injection Heq as _ <-. exact (Hc s _ s1 Hcs).
Qed.

Lemma keeps_try_except {A} (body : M A) (catches : exn -> bool)
    (handler : exn -> M A) :
  keeps R body -> (forall e, keeps R (handler e)) ->
  keeps R (try_except body catches handler).
Proof.
  intros Hb Hh s r s' Heq. unfold try_except in Heq.
  destruct (body s) as [[a|e] s1] eqn:Hbs.
  - injection Heq as _ <-. exact (Hb s _ s1 Hbs).
  - destruct (catches e).
    + apply (frame_trans s s1 s'); [exact (Hb s _ s1 Hbs)|].
      exact (Hh e s1 r s' Heq).
    + injection Heq as _ <-. exact (Hb s _ s1 Hbs).
Qed.

Lemma keeps_for_each {A} (l : list A) (body : A -> M unit) :
  (forall a, keeps R (body a)) -> keeps R (for_each l body).
Proof.
  intros Hb. induction l as [|a l IH]; simpl.
  - apply keeps_ret.
  - apply keeps_bind; [apply Hb|intros _; exact IH].
Qed.

Lemma keeps_print (line : string) : keeps R (print line).
Proof. intros s r s' Heq. injection Heq as _ <-. apply frame_printed. Qed.

Lemma keeps_logging_error (line : string) : keeps R (logging_error line).
Proof. intros s r s' Heq. injection Heq as _ <-. apply frame_logged. Qed.

Lemma keeps_get_chat_messages : keeps R get_chat_messages.
Proof. intros s r s' Heq. injection Heq as _ <-. apply frame_refl. Qed.

Lemma keeps_report_exists : keeps R report_exists.
Proof. intros s r s' Heq. injection Heq as _ <-. apply frame_refl. Qed.

Lemma keeps_read_report : keeps R read_report.
Proof. intros s r s' Heq. injection Heq as _ <-. apply frame_refl. Qed.

Lemma keeps_json_load (E : Env) (text : string) : keeps R (json_load E text).
Proof.
  unfold json_load. destruct (json_loads E text);
    [apply keeps_ret|apply keeps_raise].
Qed.

Lemma keeps_subprocess_run (E : Env) (check : bool) (cmd : command) :
  keeps R (subprocess_run E check cmd).
Proof.
  intros s r s' Heq. unfold subprocess_run in Heq.
  destruct (process E (List.length (ran s))) as [rc out|e].
  - destruct (check && negb (rc =? 0)%Z);
      injection Heq as _ <-; apply frame_ran.
  - injection Heq as _ <-. apply frame_ran.
Qed.

Lemma keeps_check_terraform_fmt (E : Env) : keeps R (check_terraform_fmt E).
Proof.
  unfold check_terraform_fmt. apply keeps_try_except.
  - apply keeps_bind; [apply keeps_subprocess_run|intros; apply keeps_ret].
  - intros; apply keeps_ret.
Qed.

Lemma keeps_auto_terraform_fmt (E : Env) : keeps R (auto_terraform_fmt E).
Proof.
  unfold auto_terraform_fmt. apply keeps_try_except.
  - apply keeps_bind; [apply keeps_subprocess_run|intros; apply keeps_ret].
  - intros; apply keeps_ret.
Qed.

Lemma keeps_check_terraform_validate (E : Env) :
  keeps R (check_terraform_validate E).
Proof.
  unfold check_terraform_validate. apply keeps_try_except.
  - apply keeps_bind; [apply keeps_subprocess_run|intros _].
    apply keeps_bind; [apply keeps_subprocess_run|intros; apply keeps_ret].
  - intros; apply keeps_ret.
Qed.

Lemma keeps_create_git_pr_docker (E : Env) (github_token : string) :
  keeps R (create_git_pr_docker E github_token).
Proof.
  unfold create_git_pr_docker. apply keeps_try_except.
  - apply keeps_bind; [apply keeps_subprocess_run|intros; apply keeps_ret].
  - intros; apply keeps_ret.
Qed.

Lemma keeps_load_report (E : Env) : keeps R (load_report E).
Proof.
  unfold load_report. apply keeps_try_except.
  - apply keeps_bind; [apply keeps_read_report|intros text].
    apply keeps_bind; [apply keeps_json_load|intros; apply keeps_ret].
  - intros _. apply keeps_bind; [apply keeps_print|intros; apply keeps_ret].
Qed.

Lemma keeps_verify_report (E : Env) : keeps R (verify_report E).
Proof.
  unfold verify_report.
  apply keeps_bind; [apply keeps_report_exists|intros [|]];
    [|apply keeps_ret].
  apply keeps_bind; [apply keeps_load_report|intros [report|]];
    [|apply keeps_ret].
  apply keeps_bind; [apply keeps_lift|intros failed].
  destruct (truthy failed); [|apply keeps_print].
  apply keeps_bind; [apply keeps_lift|intros n; apply keeps_print].
Qed.

(** The scanner wrapper, for a relation that the writing of the report
    does not disturb. *)
Lemma keeps_run_checkov_scan (E : Env) :
  (forall text s, R s (set_report text s)) ->
  keeps R (run_checkov_scan E).
Proof.
  intros Hset. unfold run_checkov_scan. apply keeps_try_except.
  - apply keeps_bind; [apply keeps_subprocess_run|intros result].
    apply keeps_bind; [|intros; apply keeps_ret].
    intros s r s' Heq. injection Heq as _ <-. apply Hset.
  - intros; apply keeps_ret.
Qed.

(** The model client and the advisory step, for a relation that the
    growth of the conversation and of the requests does not disturb. *)
Lemma keeps_get_response (E : Env) (messages : list message) :
  (forall m s, R s (add_posted m s)) ->
  keeps R (get_response E messages).
Proof.
  intros Hpost s r s' Heq. rewrite get_response_eq in Heq.
  destruct (reply_of E (backend E (List.length (posted s)))).
  - injection Heq as _ <-. apply Hpost.
  - injection Heq as _ <-.
    apply (frame_trans _ (add_posted messages s)); [apply Hpost|].
    apply frame_logged.
Qed.

Lemma keeps_append_message (m : message) :
  (forall m' s, R s (add_message m' s)) -> keeps R (append_message m).
Proof. intros Happ s r s' Heq. injection Heq as _ <-. apply Happ. Qed.

Lemma keeps_advise (E : Env) (check : json) :
  (forall m s, R s (add_posted m s)) ->
  (forall m s, R s (add_message m s)) ->
  keeps R (advise E check).
Proof.
  intros Hpost Happ. unfold advise.
  apply keeps_bind; [apply keeps_lift|intros p].
  apply keeps_bind; [apply keeps_append_message, Happ|intros _].
  apply keeps_bind; [apply keeps_get_chat_messages|intros messages].
  apply keeps_bind; [apply keeps_get_response, Hpost|intros reply].
  apply keeps_bind; [apply keeps_print|intros _].
  apply keeps_append_message, Happ.
Qed.

(** The report phase of a scan, given what the advisory step keeps. *)
Lemma keeps_advise_on_report (E : Env) :
  (forall check, keeps R (advise E check)) ->
  keeps R (advise_on_report E).
Proof.
  intros Hadvise. unfold advise_on_report.
  apply keeps_bind; [apply keeps_report_exists|intros [|]];
    [|apply keeps_ret].
  apply keeps_bind; [apply keeps_load_report|intros [report|]];
    [|apply keeps_ret].
  apply keeps_bind; [apply keeps_lift|intros failed].
  destruct (truthy failed); [|apply keeps_print].
  apply keeps_bind; [apply keeps_lift|intros n].
  apply keeps_bind; [apply keeps_print|intros _].
  apply keeps_bind; [apply keeps_lift|intros top].
  apply keeps_bind; [apply keeps_lift|intros checks].
  apply keeps_for_each, Hadvise.
Qed.

End Keeping.

#[local] Instance quiet_frame : Frame quiet.
Proof. split; unfold quiet; intros; simpl; intuition congruence. Qed.

#[local] Instance same_report_frame : Frame same_report.
Proof. split; unfold same_report; intros; simpl; congruence. Qed.

Lemma paired_app (a b : list message) :
  paired a -> paired b -> paired (a ++ b).
Proof.
  induction 1 as [|text reply rest Hrest IH]; intros Hb; simpl.
  - exact Hb.
  - constructor. exact (IH Hb).
Qed.

Lemma extends_same_talk (s s' : State) :
  chat_messages s' = chat_messages s -> posted s' = posted s -> extends s s'.
Proof.
  intros Hc Hp. exists [], []. rewrite !app_nil_r.
  repeat split; try assumption; constructor.
Qed.

#[local] Instance extends_frame : Frame extends.
Proof.
  split.
  - intros s. now apply extends_same_talk.
  - intros a b c (t1 & r1 & Hc1 & Hp1 & Hpair1 & Hlen1 & Hreq1)
                 (t2 & r2 & Hc2 & Hp2 & Hpair2 & Hlen2 & Hreq2).
    exists (t1 ++ t2)%list, (r1 ++ r2)%list.
    rewrite Hc2, Hc1, Hp2, Hp1, <- !app_assoc, !length_app.
    repeat split; try reflexivity.
    + now apply paired_app.
    + lia.
    + apply Forall_app. split; [exact Hreq1|].
      eapply Forall_impl; [|exact Hreq2].
      intros req (before & text & Hb & ->).
      exists (t1 ++ before)%list, text. split; [now apply paired_app|].
      now rewrite Hc1, <- !app_assoc.
  - intros line s. now apply extends_same_talk.
  - intros line s. now apply extends_same_talk.
  - intros cmd s. now apply extends_same_talk.
Qed.

Lemma extends_set_report (text : string) (s : State) :
  extends s (set_report text s).
Proof. now apply extends_same_talk. Qed.

(** One call of the model with the reply appended: one pair, one
    request. *)
Lemma extends_one_call (s s' : State) (text : string) (reply : json) :
  chat_messages s' =
    (chat_messages s ++ [user_message text; assistant_message reply])%list ->
  posted s' = (posted s ++ [chat_messages s ++ [user_message text]])%list ->
  extends s s'.
Proof.
  intros Hc Hp.
  exists [user_message text; assistant_message reply],
    [(chat_messages s ++ [user_message text])%list].
  repeat split; try assumption.
  - repeat constructor.
  - constructor; [|constructor].
    exists [], text. split; [constructor|reflexivity].
Qed.

Lemma advise_extends (E : Env) (check : json) : keeps extends (advise E check).
Proof.
  intros s r s' Heq.
  destruct (build_prompt E check) as [[cid prompt]|e] eqn:Hp.
  - destruct (advise_spec E check cid prompt s Hp)
      as (s1 & Hrun & Hchat & Hposted & _).
    rewrite Hrun in Heq. injection Heq as _ <-.
    exact (extends_one_call s s1 prompt _ Hchat Hposted).
  - unfold advise, bind, lift in Heq. rewrite Hp in Heq.
    injection Heq as _ <-. apply frame_refl.
Qed.

Lemma free_text_turn_spec (E : Env) (text : string) (s : State) :
  exists s',
    free_text_turn E text s = (Ok Continue, s') /\
    chat_messages s' =
      (chat_messages s ++
         [user_message text;
          assistant_message (answer E (List.length (posted s)))])%list /\
    posted s' = (posted s ++ [chat_messages s ++ [user_message text]])%list /\
    printed s' =
      (printed s ++
         [(MSG_GPT ++ py_str E (answer E (List.length (posted s))) ++ nl)%string])%list /\
    report_json s' = report_json s /\
    ran s' = ran s.
Proof.
  unfold free_text_turn, bind, append_message, get_chat_messages.
  rewrite get_response_eq. unfold answer. simpl.
  destruct (reply_of E (backend E (List.length (posted s)))); simpl;
    eexists; (split; [reflexivity|]); simpl;
    rewrite <- app_assoc; repeat split; reflexivity.
Qed.

Lemma free_text_turn_extends (E : Env) (text : string) :
  keeps extends (free_text_turn E text).
Proof.
  intros s r s' Heq.
  destruct (free_text_turn_spec E text s)
    as (s1 & Hrun & Hchat & Hposted & _).
  rewrite Hrun in Heq. injection Heq as _ <-.
  exact (extends_one_call s s1 text _ Hchat Hposted).
Qed.

(** The loop body, from what its two talking parts keep. *)
Lemma keeps_loop_body (R : State -> State -> Prop) `{Frame R} (E : Env)
    (github_token raw : string) :
  (forall text s, R s (set_report text s)) ->
  (forall check, keeps R (advise E check)) ->
  (forall text, keeps R (free_text_turn E text)) ->
  keeps R (loop_body E github_token raw).
Proof.
  intros Hset Hadvise Hfree. unfold loop_body.
  destruct (String.eqb (normalise E raw) "exit"); [apply keeps_ret; assumption|].
  destruct (String.eqb (normalise E raw) "fmt").
  { apply keeps_bind; [assumption|now apply keeps_check_terraform_fmt|intros out].
    apply keeps_bind; [assumption|now apply keeps_print|intros _].
    now apply keeps_ret. }
  destruct (String.eqb (normalise E raw) "auto_fmt").
  { apply keeps_bind; [assumption|now apply keeps_auto_terraform_fmt|intros out].
    apply keeps_bind; [assumption|now apply keeps_print|intros _].
    now apply keeps_ret. }
  destruct (String.eqb (normalise E raw) "validate").
  { apply keeps_bind; [assumption|now apply keeps_check_terraform_validate|intros out].
    apply keeps_bind; [assumption|now apply keeps_print|intros _].
    now apply keeps_ret. }
  destruct (String.eqb (normalise E raw) "scan").
  { apply keeps_bind; [assumption|now apply keeps_run_checkov_scan|intros out].
    apply keeps_bind; [assumption|now apply keeps_print|intros _].
    apply keeps_bind; [assumption|now apply keeps_advise_on_report|intros _].
    now apply keeps_ret. }
  destruct (String.eqb (normalise E raw) "pr").
  { apply keeps_bind; [assumption|now apply keeps_print|intros _].
    apply keeps_bind; [assumption|now apply keeps_create_git_pr_docker|intros out].
    apply keeps_bind; [assumption|now apply keeps_print|intros _].
    apply keeps_bind; [assumption|now apply keeps_print|intros _].
    apply keeps_bind; [assumption|now apply keeps_run_checkov_scan|intros out'].
    apply keeps_bind; [assumption|now apply keeps_print|intros _].
    apply keeps_bind; [assumption|now apply keeps_verify_report|intros _].
    now apply keeps_ret. }
  apply Hfree.
Qed.

Lemma keeps_main_loop (R : State -> State -> Prop) `{Frame R} (E : Env)
    (github_token : string) (typed : list string) :
  (forall raw, keeps R (loop_body E github_token raw)) ->
  keeps R (main_loop E github_token typed).
Proof.
  intros Hbody. induction typed as [|raw rest IH]; simpl.
  - now apply keeps_raise.
  - apply keeps_bind; [assumption|apply Hbody|intros [|]];
      [exact IH|now apply keeps_ret].
Qed.

Lemma main_loop_extends (E : Env) (github_token : string)
    (typed : list string) (s : State) :
  extends s (snd (main_loop E github_token typed s)).
Proof.
  destruct (main_loop E github_token typed s) as [r s'] eqn:Hrun.
  refine (keeps_main_loop extends E github_token typed _ s r s' Hrun).
  intros raw. apply (keeps_loop_body extends E github_token raw).
  - apply extends_set_report.
  - apply advise_extends.
  - apply free_text_turn_extends.
Qed.

(** X1. Over a whole run of the loop, whatever is typed, whatever the
    environment answers and however the run ends, the conversation only
    grows, and what is added is a sequence of user / assistant pairs:
    no message is removed or rewritten, no user message is left without
    a reply, no reply is stored without its prompt. *)
Theorem conversation_grows_by_pairs (E : Env) (github_token : string)
    (typed : list string) (s : State) :
  exists turns,
    chat_messages (snd (main_loop E github_token typed s))
    = (chat_messages s ++ turns)%list /\
    paired turns.
Proof.
  destruct (main_loop_extends E github_token typed s)
    as (turns & reqs & Hchat & _ & Hpaired & _).
  now exists turns.
Qed.

(** X2. Every request posted to the model during a run is the
    conversation the run started with, followed by complete user /
    assistant pairs and then one user message: the model is never sent
    a conversation that ends with its own reply, or an empty one. *)
Theorem every_request_ends_with_user_message (E : Env)
    (github_token : string) (typed : list string) (s : State) :
  exists requests,
    posted (snd (main_loop E github_token typed s))
    = (posted s ++ requests)%list /\
    Forall (ends_with_user (chat_messages s)) requests.
Proof.
  destruct (main_loop_extends E github_token typed s)
    as (turns & reqs & _ & Hposted & _ & _ & Hreqs).
  now exists reqs.
Qed.

(** X3. Over a whole run, the conversation grows by exactly two
    messages for each request posted, whether the request succeeded or
    failed. *)
Theorem two_messages_for_each_request (E : Env) (github_token : string)
    (typed : list string) (s : State) :
  List.length (chat_messages (snd (main_loop E github_token typed s)))
  + 2 * List.length (posted s)
  = List.length (chat_messages s)
    + 2 * List.length (posted (snd (main_loop E github_token typed s))).
Proof.
  destruct (main_loop_extends E github_token typed s)
    as (turns & reqs & Hchat & Hposted & _ & Hlen & _).
  rewrite Hchat, Hposted, !length_app. lia.
Qed.

Lemma keeps_loop_body_tool (R : State -> State -> Prop) `{Frame R}
    (E : Env) (github_token raw : string) :
  (forall text s, R s (set_report text s)) ->
  is_tool_command (normalise E raw) = true ->
  keeps R (loop_body E github_token raw).
Proof.
  intros Hset Htool. unfold loop_body. unfold is_tool_command in Htool.
  destruct (String.eqb (normalise E raw) "exit"); [now apply keeps_ret|].
  destruct (String.eqb (normalise E raw) "fmt").
  { apply keeps_bind; [assumption|now apply keeps_check_terraform_fmt|intros out].
    apply keeps_bind; [assumption|now apply keeps_print|intros _].
    now apply keeps_ret. }
  destruct (String.eqb (normalise E raw) "auto_fmt").
  { apply keeps_bind; [assumption|now apply keeps_auto_terraform_fmt|intros out].
    apply keeps_bind; [assumption|now apply keeps_print|intros _].
    now apply keeps_ret. }
  destruct (String.eqb (normalise E raw) "validate").
  { apply keeps_bind; [assumption|now apply keeps_check_terraform_validate|intros out].
    apply keeps_bind; [assumption|now apply keeps_print|intros _].
    now apply keeps_ret. }
  destruct (String.eqb (normalise E raw) "scan") eqn:Hscan.
  { apply String.eqb_eq in Hscan. rewrite Hscan in Htool. discriminate Htool. }
  destruct (String.eqb (normalise E raw) "pr"); [|discriminate Htool].
  apply keeps_bind; [assumption|now apply keeps_print|intros _].
  apply keeps_bind; [assumption|now apply keeps_create_git_pr_docker|intros out].
  apply keeps_bind; [assumption|now apply keeps_print|intros _].
  apply keeps_bind; [assumption|now apply keeps_print|intros _].
  apply keeps_bind; [assumption|now apply keeps_run_checkov_scan|intros out'].
  apply keeps_bind; [assumption|now apply keeps_print|intros _].
  apply keeps_bind; [assumption|now apply keeps_verify_report|intros _].
  now apply keeps_ret.
Qed.

(** X4. A turn on [exit], [fmt], [auto_fmt], [validate] or [pr] never
    talks to the model: it posts no request and leaves the conversation
    as it was, however the turn ends.  In particular a [pr] turn that
    still finds issues asks for no advice. *)
Theorem tool_turns_post_nothing (E : Env) (github_token raw : string)
    (s : State) :
  is_tool_command (normalise E raw) = true ->
  chat_messages (snd (loop_body E github_token raw s)) = chat_messages s /\
  posted (snd (loop_body E github_token raw s)) = posted s.
Proof.
  intros Htool.
  destruct (loop_body E github_token raw s) as [r s'] eqn:Hrun.
  refine (keeps_loop_body_tool quiet E github_token raw _ Htool s r s' Hrun).
  intros text s0. split; reflexivity.
Qed.

Lemma tool_turns_post_nothing_witness :
  is_tool_command (normalise rejected_push_env " PR ") = true /\
  chat_messages (snd (loop_body rejected_push_env "token" " PR "
                        (initial_state None)))
  = chat_messages (initial_state None) /\
  posted (snd (loop_body rejected_push_env "token" " PR " (initial_state None)))
  = posted (initial_state None).
Proof.
  split; [reflexivity|].
  apply (tool_turns_post_nothing rejected_push_env "token" " PR "
           (initial_state None)).
  reflexivity.
Defined.

(** X5. Only [scan] and [pr] write the report file: a turn on any other
    line, command or free text, leaves [report.json] as it was, however
    the turn ends. *)
Theorem report_changes_only_on_scan_and_pr (E : Env)
    (github_token raw : string) (s : State) :
  normalise E raw <> "scan" ->
  normalise E raw <> "pr" ->
  report_json (snd (loop_body E github_token raw s)) = report_json s.
Proof.
  intros Hscan Hpr.
  destruct (loop_body E github_token raw s) as [r s'] eqn:Hrun.
  revert s r s' Hrun. change (keeps same_report (loop_body E github_token raw)).
  unfold loop_body.
  destruct (String.eqb (normalise E raw) "exit"); [apply (keeps_ret same_report)|].
  destruct (String.eqb (normalise E raw) "fmt").
  { apply (keeps_bind same_report); [apply (keeps_check_terraform_fmt same_report)|intros out].
    apply (keeps_bind same_report); [apply (keeps_print same_report)|intros _].
    apply (keeps_ret same_report). }
  destruct (String.eqb (normalise E raw) "auto_fmt").
  { apply (keeps_bind same_report); [apply (keeps_auto_terraform_fmt same_report)|intros out].
    apply (keeps_bind same_report); [apply (keeps_print same_report)|intros _].
    apply (keeps_ret same_report). }
  destruct (String.eqb (normalise E raw) "validate").
  { apply (keeps_bind same_report); [apply (keeps_check_terraform_validate same_report)|intros out].
    apply (keeps_bind same_report); [apply (keeps_print same_report)|intros _].
    apply (keeps_ret same_report). }
  destruct (String.eqb (normalise E raw) "scan") eqn:H1;
    [apply String.eqb_eq in H1; contradiction|].
  destruct (String.eqb (normalise E raw) "pr") eqn:H2;
    [apply String.eqb_eq in H2; contradiction|].
  intros s r s' Hrun.
  destruct (free_text_turn_spec E (normalise E raw) s)
    as (s1 & Hrun1 & _ & _ & _ & Hreport & _).
  change (free_text_turn E (normalise E raw) s = (r, s')) in Hrun.
  rewrite Hrun1 in Hrun. injection Hrun as _ <-. exact Hreport.
Qed.

Lemma report_changes_only_on_scan_and_pr_witness :
  normalise no_terraform_env "validate" <> "scan" /\
  normalise no_terraform_env "validate" <> "pr" /\
  report_json (snd (loop_body no_terraform_env "token" "validate"
                      (state_with_report (sample_report five_checks))))
  = report_json (state_with_report (sample_report five_checks)).
Proof.
  assert (H1 : normalise no_terraform_env "validate" <> "scan") by discriminate.
  assert (H2 : normalise no_terraform_env "validate" <> "pr") by discriminate.
  split; [exact H1|]. split; [exact H2|].
  exact (report_changes_only_on_scan_and_pr no_terraform_env "token"
           "validate" (state_with_report (sample_report five_checks)) H1 H2).
Defined.

Lemma advise_on_report_same_report (E : Env) :
  keeps same_report (advise_on_report E).
Proof.
  apply (keeps_advise_on_report same_report).
  intros check. apply (keeps_advise same_report); intros; reflexivity.
Qed.

(** X6. When the scanner process of a [scan] turn runs to its end, the
    report file holds exactly what the process wrote to its standard
    output, whatever the exit code and whatever the file held before,
    and the rest of the turn does not change it.  A scan that fails
    inside Docker and writes nothing thus replaces the previous report
    by an empty file. *)
Theorem scan_overwrites_the_report (E : Env) (github_token raw : string)
    (s : State) (rc : Z) (out : string) :
  normalise E raw = "scan" ->
  process E (List.length (ran s)) = Exited rc out ->
  report_json (snd (loop_body E github_token raw s)) = Some out.
Proof.
  intros Hraw Hproc.
  rewrite (loop_body_scan E github_token raw Hraw).
  unfold bind at 1. rewrite (run_checkov_scan_exited E s rc out Hproc).
  set (s1 := set_report out (add_ran (checkov_command E) s)).
  destruct ((print (MSG_SCAN_DONE ++ "report.json") ;;
             advise_on_report E ;; ret Continue) s1) as [r s'] eqn:Hrest.
  simpl.
  assert (Hkeep : keeps same_report
            (print (MSG_SCAN_DONE ++ "report.json") ;;
             advise_on_report E ;; @ret flow Continue)).
  { apply (keeps_bind same_report); [apply (keeps_print same_report)|intros _].
    apply (keeps_bind same_report);
      [apply advise_on_report_same_report|intros _].
    apply (keeps_ret same_report). }
  exact (Hkeep s1 r s' Hrest).
Qed.

Lemma scan_overwrites_the_report_witness :
  normalise silent_env "scan" = "scan" /\
  process silent_env
    (List.length (ran (state_with_report (sample_report five_checks))))
  = Exited 125 EmptyString /\
  report_json (snd (loop_body silent_env "token" "scan"
                      (state_with_report (sample_report five_checks))))
  = Some EmptyString.
Proof.
  split; [reflexivity|]. split; [reflexivity|].
  apply (scan_overwrites_the_report silent_env "token" "scan"
           (state_with_report (sample_report five_checks)) 125 EmptyString);
    reflexivity.
Defined.

(** ** Reports the scan was not written for *)

(** X7. When the scanner wrapper fails with a [SubprocessError], the
    report file is not rewritten, and a report left by an earlier scan
    is used as if it were fresh: the turn prints the scanner's error
    line and then posts the prompts of the first three checks of the
    old report. *)
Theorem stale_report_is_advised (E : Env) (github_token raw : string)
    (s : State) (e : exn) (text : string) (report : json)
    (checks : list json) :
  normalise E raw = "scan" ->
  process E (List.length (ran s)) = NotStarted e ->
  isinstance e SubprocessError = true ->
  report_json s = Some text ->
  json_loads E text = Some report ->
  failed_checks report = Ok (JArr checks) ->
  Forall (well_shaped E) (firstn 3 checks) ->
  exists s' requests,
    loop_body E github_token raw s = (Ok Continue, s') /\
    report_json s' = Some text /\
    nth_error (printed s') (List.length (printed s))
    = Some (MSG_SCAN_ERROR ++ exn_str E e) /\
    posted s' = (posted s ++ requests)%list /\
    Forall2 (carries_prompt E) (firstn 3 checks) requests.
Proof.
  intros Hraw Hproc Hcls Hfile Hdec Hfailed Hshape.
  set (s1 := add_printed (MSG_SCAN_ERROR ++ exn_str E e)
               (add_ran (checkov_command E) s)).
  destruct (advise_on_report_findings E s1 text report checks
              Hfile Hdec Hfailed Hshape)
    as (s' & reqs & header & lines & Hrun & Hposted & Hprinted & Hreqs & _).
  exists s', reqs.
  split; [|split; [|split; [|split]]].
  - rewrite (loop_body_scan E github_token raw Hraw).
    unfold bind at 1.
    rewrite (run_checkov_scan_not_started E s e Hproc), Hcls.
    unfold bind at 1. unfold print at 1. fold s1.
    unfold bind. rewrite Hrun. reflexivity.
  - rewrite (advise_on_report_same_report E s1 _ s' Hrun). exact Hfile.
  - rewrite Hprinted. subst s1. simpl.
    rewrite <- app_assoc, nth_error_app2, Nat.sub_diag by apply Nat.le_refl.
    reflexivity.
  - exact Hposted.
  - exact Hreqs.
Qed.

Lemma stale_report_is_advised_witness :
  exists s' requests,
    loop_body broken_env "token" "scan"
      (state_with_report (sample_report five_checks)) = (Ok Continue, s') /\
    report_json s' = Some (dumps (sample_report five_checks)) /\
    nth_error (printed s')
      (List.length (printed (state_with_report (sample_report five_checks))))
    = Some (MSG_SCAN_ERROR
            ++ exn_str broken_env
                 (Exn SubprocessError "Bad exception data from child")) /\
    posted s' =
      (posted (state_with_report (sample_report five_checks)) ++ requests)%list /\
    Forall2 (carries_prompt broken_env) (firstn 3 five_checks) requests.
Proof.
  apply (stale_report_is_advised broken_env "token" "scan"
           (state_with_report (sample_report five_checks))
           (Exn SubprocessError "Bad exception data from child")
           (dumps (sample_report five_checks))
           (sample_report five_checks) five_checks).
  - reflexivity.
  - reflexivity.
  - reflexivity.
  - reflexivity.
  - vm_compute. reflexivity.
  - reflexivity.
  - repeat constructor; eexists; vm_compute; reflexivity.
Defined.

Lemma report_phase_raises (E : Env) (s : State) (text : string)
    (report : json) (e : exn) :
  report_json s = Some text ->
  json_loads E text = Some report ->
  failed_checks report = Raise e ->
  advise_on_report E s = (Raise e, s) /\ verify_report E s = (Raise e, s).
Proof.
  intros Hfile Hdec Hfailed. split.
  - unfold advise_on_report, bind, report_exists.
    rewrite Hfile, (load_report_decoded E s text report Hfile Hdec).
    unfold lift. rewrite Hfailed. reflexivity.
  - unfold verify_report, bind, report_exists.
    rewrite Hfile, (load_report_decoded E s text report Hfile Hdec).
    unfold lift. rewrite Hfailed. reflexivity.
Qed.

Lemma report_phase_falsy (E : Env) (s : State) (text : string)
    (report failed : json) :
  report_json s = Some text ->
  json_loads E text = Some report ->
  failed_checks report = Ok failed ->
  truthy failed = false ->
  advise_on_report E s = (Ok tt, add_printed MSG_NO_FAILED s) /\
  verify_report E s = (Ok tt, add_printed MSG_RESOLVED s).
Proof.
  intros Hfile Hdec Hfailed Hfalse. split.
  - unfold advise_on_report, bind, report_exists.
    rewrite Hfile, (load_report_decoded E s text report Hfile Hdec).
    unfold lift. rewrite Hfailed, Hfalse. reflexivity.
  - unfold verify_report, bind, report_exists.
    rewrite Hfile, (load_report_decoded E s text report Hfile Hdec).
    unfold lift. rewrite Hfailed, Hfalse. reflexivity.
Qed.

Lemma failed_checks_of_no_object (v : json) :
  (not_object v \/
   exists fields r,
     v = JObj fields /\ lookup "results" fields = Some r /\ not_object r) ->
  failed_checks v = Raise (Exn AttributeError "get").
Proof.
  intros [Hv | (fields & r & -> & Hres & Hr)].
  - destruct v; try reflexivity. contradiction.
  - unfold failed_checks, dict_get at 1. rewrite Hres. simpl.
    destruct r; try reflexivity. contradiction.
Qed.

(** X8. A report that decodes to something other than a JSON object,
    such as the list Checkov prints for several frameworks, or whose
    [results] member is not an object, ends the program: the [.get]
    call raises [AttributeError], no clause catches it, and the turn,
    [scan] or [pr], stops right after the scanner's message. *)
Theorem report_that_is_no_object_ends_the_program (E : Env)
    (github_token raw : string) (s : State) (out : string) (s1 : State)
    (text : string) (v : json) :
  scanned E github_token raw s out s1 ->
  report_json s1 = Some text ->
  json_loads E text = Some v ->
  (not_object v \/
   exists fields r,
     v = JObj fields /\ lookup "results" fields = Some r /\ not_object r) ->
  loop_body E github_token raw s
  = (Raise (Exn AttributeError "get"), add_printed out s1).
Proof.
  intros Hscanned Hfile Hdec Hshape.
  pose proof (failed_checks_of_no_object v Hshape) as Hfailed.
  rewrite (loop_body_from_report E github_token raw s out s1 Hscanned).
  unfold bind.
  destruct (String.eqb (normalise E raw) "scan").
  - rewrite (proj1 (report_phase_raises E (add_printed out s1) text v _
                      Hfile Hdec Hfailed)).
    reflexivity.
  - rewrite (proj2 (report_phase_raises E (add_printed out s1) text v _
                      Hfile Hdec Hfailed)).
    reflexivity.
Qed.

Lemma report_that_is_no_object_ends_the_program_witness :
  let E := edge_env list_report in
  let out := MSG_SCAN_DONE ++ "report.json" in
  let s1 := set_report (dumps list_report)
              (add_ran (checkov_command E) (initial_state None)) in
  scanned E "token" "scan" (initial_state None) out s1 /\
  json_loads E (dumps list_report) = Some list_report /\
  not_object list_report /\
  loop_body E "token" "scan" (initial_state None)
  = (Raise (Exn AttributeError "get"), add_printed out s1).
Proof.
  intros E out s1.
  assert (H : scanned E "token" "scan" (initial_state None) out s1)
    by (apply scanned_by_scan; reflexivity).
  split; [exact H|]. split; [vm_compute; reflexivity|].
  split; [exact I|].
  apply (report_that_is_no_object_ends_the_program E "token" "scan"
           (initial_state None) out s1 (dumps list_report) list_report H).
  - reflexivity.
  - vm_compute. reflexivity.
  - left. exact I.
Defined.

(** X9. Whatever [failed_checks] holds, if Python counts it as false
    ([null], [0], [false], an empty string, list or object) the report
    is read as having no finding: a [scan] turn prints the
    no-failed-checks line, a [pr] turn the all-resolved line, and the
    loop goes on. *)
Theorem falsy_failed_checks_count_as_none (E : Env)
    (github_token raw : string) (s : State) (out : string) (s1 : State)
    (text : string) (report failed : json) :
  scanned E github_token raw s out s1 ->
  report_json s1 = Some text ->
  json_loads E text = Some report ->
  failed_checks report = Ok failed ->
  truthy failed = false ->
  loop_body E github_token raw s
  = (Ok Continue,
     add_printed
       (if String.eqb (normalise E raw) "scan" then MSG_NO_FAILED
        else MSG_RESOLVED)
       (add_printed out s1)).
Proof.
  intros Hscanned Hfile Hdec Hfailed Hfalse.
  rewrite (loop_body_from_report E github_token raw s out s1 Hscanned).
  unfold bind.
  destruct (String.eqb (normalise E raw) "scan").
  - rewrite (proj1 (report_phase_falsy E (add_printed out s1) text report
                      failed Hfile Hdec Hfailed Hfalse)).
    reflexivity.
  - rewrite (proj2 (report_phase_falsy E (add_printed out s1) text report
                      failed Hfile Hdec Hfailed Hfalse)).
    reflexivity.
Qed.

Lemma falsy_failed_checks_count_as_none_witness :
  let E := edge_env null_report in
  let out := MSG_SCAN_DONE ++ "report.json" in
  let s1 := set_report (dumps null_report)
              (add_ran (checkov_command E) (initial_state None)) in
  scanned E "token" "scan" (initial_state None) out s1 /\
  failed_checks null_report = Ok JNull /\
  loop_body E "token" "scan" (initial_state None)
  = (Ok Continue, add_printed MSG_NO_FAILED (add_printed out s1)).
Proof.
  intros E out s1.
  assert (H : scanned E "token" "scan" (initial_state None) out s1)
    by (apply scanned_by_scan; reflexivity).
  split; [exact H|]. split; [reflexivity|].
  apply (falsy_failed_checks_count_as_none E "token" "scan"
           (initial_state None) out s1 (dumps null_report) null_report JNull H).
  - reflexivity.
  - vm_compute. reflexivity.
  - reflexivity.
  - reflexivity.
Defined.

(** ** Which checks can be advised on *)







(** ** How the requests of one scan follow each other *)

Lemma for_each_advise_requests (E : Env) (checks : list json)
    (prompts : list string) :
  Forall2 (fun c p => exists cid, build_prompt E c = Ok (cid, p))
    checks prompts ->
  forall s,
    exists s',
      for_each checks (advise E) s = (Ok tt, s') /\
      posted s' =
        (posted s ++
           requests_of E (chat_messages s) (List.length (posted s)) prompts)%list.
Proof.
  induction 1 as [|c p checks prompts [cid Hp] _ IH]; intros s.
  - exists s. simpl. now rewrite app_nil_r.
  - destruct (advise_spec E c cid p s Hp)
      as (s1 & Hrun & Hchat & Hposted & _).
    destruct (IH s1) as (s' & Hrun' & Hposted').
    exists s'. simpl. unfold bind at 1. rewrite Hrun.
    split; [exact Hrun'|].
    rewrite Hposted', Hposted, Hchat, length_app, <- app_assoc. simpl.
    now rewrite Nat.add_1_r.
Qed.

Lemma requests_of_chain (E : Env) (prompts : list string) :
  forall chat n k req req',
    nth_error (requests_of E chat n prompts) k = Some req ->
    nth_error (requests_of E chat n prompts) (S k) = Some req' ->
    exists p,
      req' = (req ++ [assistant_message (answer E (n + k)); user_message p])%list.
Proof.
  induction prompts as [|p prompts IH]; intros chat n k req req' Hk Hk'.
  - destruct k; discriminate Hk.
  - destruct k as [|k].
    + simpl in Hk. injection Hk as <-.
      destruct prompts as [|p' prompts]; [discriminate Hk'|].
      simpl in Hk'. injection Hk' as <-.
      exists p'. rewrite Nat.add_0_r, <- !app_assoc. reflexivity.
    + simpl in Hk. change (nth_error (requests_of E chat n (p :: prompts)) (S (S k)))
        with (nth_error
                (requests_of E
                   (chat ++ [user_message p; assistant_message (answer E n)])%list
                   (S n) prompts) (S k)) in Hk'.
      destruct (IH _ _ k req req' Hk Hk') as [p' Hp'].
      exists p'. rewrite Hp'. now rewrite Nat.add_succ_r.
Qed.

(** X12. The requests of one scan form a chain: the first is the
    conversation followed by the first prompt, and each later request
    is the request before it, followed by the reply that request got
    (the sentinel text if it failed) and by the next prompt.  So the
    model is sent all earlier prompts and replies again with every
    finding. *)
Theorem scan_requests_chain (E : Env) (s : State) (text : string)
    (report : json) (checks : list json) (prompts : list string) :
  report_json s = Some text ->
  json_loads E text = Some report ->
  failed_checks report = Ok (JArr checks) ->
  Forall2 (fun c p => exists cid, build_prompt E c = Ok (cid, p))
    (firstn 3 checks) prompts ->
  exists s' requests,
    advise_on_report E s = (Ok tt, s') /\
    posted s' = (posted s ++ requests)%list /\
    (forall p, nth_error prompts 0 = Some p ->
       nth_error requests 0 = Some (chat_messages s ++ [user_message p])%list) /\
    (forall k req req',
       nth_error requests k = Some req ->
       nth_error requests (S k) = Some req' ->
       exists p,
         req' =
           (req ++ [assistant_message (answer E (List.length (posted s) + k));
                    user_message p])%list).
Proof.
  intros Hfile Hdec Hfailed Hprompts.
  unfold advise_on_report, bind, report_exists. rewrite Hfile.
  rewrite (load_report_decoded E s text report Hfile Hdec).
  unfold lift. rewrite Hfailed.
  destruct checks as [|c cs].
  - inversion Hprompts; subst.
    exists (add_printed MSG_NO_FAILED s), []. simpl. rewrite app_nil_r.
    repeat split; try reflexivity.
    + intros p Hp. discriminate Hp.
    + intros [|k] req req' Hk; discriminate Hk.
  - cbn [truthy py_len py_slice_to py_iter print].
    set (s0 := add_printed _ s).
    destruct (for_each_advise_requests E (firstn 3 (c :: cs)) prompts
                Hprompts s0) as (s' & Hrun & Hposted).
    exists s', (requests_of E (chat_messages s) (List.length (posted s)) prompts).
    rewrite Hrun. split; [reflexivity|]. split; [exact Hposted|]. split.
    + intros p Hp. destruct prompts as [|p' prompts]; [discriminate Hp|].
      injection Hp as ->. reflexivity.
    + apply requests_of_chain.
Qed.

Lemma scan_requests_chain_witness :
  exists prompts,
    Forall2 (fun c p => exists cid, build_prompt five_env c = Ok (cid, p))
      (firstn 3 five_checks) prompts /\
    exists s' requests,
      advise_on_report five_env (state_with_report (sample_report five_checks))
      = (Ok tt, s') /\
      posted s' =
        (posted (state_with_report (sample_report five_checks)) ++ requests)%list /\
      (forall p, nth_error prompts 0 = Some p ->
         nth_error requests 0 =
           Some (chat_messages (state_with_report (sample_report five_checks))
                 ++ [user_message p])%list) /\
      (forall k req req',
         nth_error requests k = Some req ->
         nth_error requests (S k) = Some req' ->
         exists p,
           req' =
             (req ++
                [assistant_message
                   (answer five_env
                      (List.length
                         (posted (state_with_report (sample_report five_checks)))
                       + k));
                 user_message p])%list).
Proof.
  assert (H : exists prompts,
            Forall2 (fun c p => exists cid, build_prompt five_env c = Ok (cid, p))
              (firstn 3 five_checks) prompts).
  { eexists. repeat constructor; eexists; vm_compute; reflexivity. }
  destruct H as [prompts H]. exists prompts. split; [exact H|].
  apply (scan_requests_chain five_env
           (state_with_report (sample_report five_checks))
           (dumps (sample_report five_checks))
           (sample_report five_checks) five_checks prompts).
  - reflexivity.
  - vm_compute. reflexivity.
  - reflexivity.
  - exact H.
Defined.

(** ** Edge cases of the line typed *)

(** X13. A line that is empty or made of blanks only is no command: it
    is sent to the model as an empty user message, and the conversation
    takes the empty message and the reply. *)
Theorem blank_line_is_sent_to_the_model (E : Env) (github_token raw : string)
    (s : State) :
  blank raw = true ->
  exists s',
    loop_body E github_token raw s = (Ok Continue, s') /\
    posted s' =
      (posted s ++ [chat_messages s ++ [user_message EmptyString]])%list /\
    chat_messages s' =
      (chat_messages s ++
         [user_message EmptyString;
          assistant_message (answer E (List.length (posted s)))])%list.
Proof.
  intros Hblank.
  assert (Hnorm : normalise E raw = EmptyString).
  { unfold normalise, strip. now rewrite (lstrip_blank raw Hblank). }
  assert (Hword : is_command (normalise E raw) = false)
    by now rewrite Hnorm.
  destruct (loop_body_free_text E github_token raw s Hword)
    as (s' & Hrun & Hposted & Hchat & _).
  exists s'. rewrite Hnorm in Hposted, Hchat. repeat split; assumption.
Qed.

Lemma blank_line_is_sent_to_the_model_witness :
  blank "   " = true /\
  exists s',
    loop_body five_env "token" "   " (initial_state None) = (Ok Continue, s') /\
    posted s' =
      (posted (initial_state None) ++
         [chat_messages (initial_state None) ++ [user_message EmptyString]])%list /\
    chat_messages s' =
      (chat_messages (initial_state None) ++
         [user_message EmptyString;
          assistant_message
            (answer five_env (List.length (posted (initial_state None))))])%list.
Proof.
  split; [reflexivity|].
  apply (blank_line_is_sent_to_the_model five_env "token" "   "
           (initial_state None)).
  reflexivity.
Defined.

(** ** The Terraform wrappers *)

(** X14. [check_terraform_validate] runs [terraform init] and then
    [terraform validate], and its verdict is read from the second
    process alone: the exit code and the output of [init] are ignored,
    so a failed [init] followed by a [validate] that exits with 0 is
    reported as valid.  Only when [init] cannot be started at all is
    [validate] not run, and the wrapper returns the error message. *)
Theorem validate_verdict_ignores_init (E : Env) (s : State) :
  check_terraform_validate E s =
  match process E (List.length (ran s)) with
  | NotStarted e =>
      (Ok (MSG_VALIDATE_ERROR ++ exn_str E e), add_ran (init_command E) s)
  | Exited _ _ =>
      (Ok match process E (S (List.length (ran s))) with
          | Exited rc out =>
              if (rc =? 0)%Z then MSG_VALIDATE_OK
              else MSG_VALIDATE_FAILED ++ strip out
          | NotStarted e => MSG_VALIDATE_ERROR ++ exn_str E e
          end,
       add_ran (validate_command E) (add_ran (init_command E) s))
  end.
Proof.
  unfold check_terraform_validate, try_except, bind, subprocess_run.
  fold (init_command E). fold (validate_command E).
  destruct (process E (List.length (ran s))) as [rc1 out1|e1]; simpl;
    [|reflexivity].
  rewrite length_app, Nat.add_1_r. simpl.
  destruct (process E (S (List.length (ran s)))) as [rc out|e]; simpl;
    reflexivity.
Qed.

Lemma auto_terraform_fmt_exited (E : Env) (s : State) (rc : Z) (out : string) :
  process E (List.length (ran s)) = Exited rc out ->
  auto_terraform_fmt E s =
  (Ok (if blank out then MSG_AUTO_FMT_DONE else strip out),
   add_ran (auto_fmt_command E) s).
Proof.
  intros Hproc.
  unfold auto_terraform_fmt, try_except, bind, subprocess_run.
  rewrite Hproc. simpl. rewrite lstrip_empty_iff_blank. reflexivity.
Qed.

(** X15. An [auto_fmt] turn whose process runs to its end never reports
    a failure: the exit code is not read.  When the process wrote
    nothing but blanks the turn prints the no-changes line, otherwise
    what the process wrote, stripped. *)
Theorem auto_fmt_never_reports_failure (E : Env) (github_token raw : string)
    (s : State) (rc : Z) (out : string) :
  normalise E raw = "auto_fmt" ->
  process E (List.length (ran s)) = Exited rc out ->
  loop_body E github_token raw s =
  (Ok Continue,
   add_printed (if blank out then MSG_AUTO_FMT_DONE else strip out)
     (add_ran (auto_fmt_command E) s)).
Proof.
  intros Hraw Hproc.
  assert (Hbody : loop_body E github_token raw =
                  (out <- auto_terraform_fmt E ;; print out ;; ret Continue))
    by (unfold loop_body; rewrite Hraw; reflexivity).
  rewrite Hbody. unfold bind at 1.
  rewrite (auto_terraform_fmt_exited E s rc out Hproc). reflexivity.
Qed.

Lemma auto_fmt_never_reports_failure_witness :
  normalise silent_env "auto_fmt" = "auto_fmt" /\
  process silent_env (List.length (ran (initial_state None)))
  = Exited 125 EmptyString /\
  loop_body silent_env "token" "auto_fmt" (initial_state None) =
  (Ok Continue,
   add_printed MSG_AUTO_FMT_DONE
     (add_ran (auto_fmt_command silent_env) (initial_state None))).
Proof.
  split; [reflexivity|]. split; [reflexivity|].
  apply (auto_fmt_never_reports_failure silent_env "token" "auto_fmt"
           (initial_state None) 125 EmptyString); reflexivity.
Defined.

(** ** The token placed in the server arguments *)

Lemma prefix_append (head tail : string) :
  String.prefix head (head ++ tail) = true.
Proof.
  induction head as [|c head IH]; [destruct tail; reflexivity|].
  simpl. destruct (ascii_dec c c); [exact IH|contradiction].
Qed.

(** X16. When the rewriting of the server arguments succeeds, the list
    keeps its length, every argument that begins with the placeholder
    is replaced by the placeholder followed by the token, and every
    other argument stays as it was; all arguments were strings. *)
Theorem inject_token_replaces_placeholders (github_token : string)
    (args out : list json) :
  inject_token github_token args = Ok out ->
  List.length out = List.length args /\
  forall i arg,
    nth_error args i = Some arg ->
    exists text,
      arg = JStr text /\
      nth_error out i =
        Some (if String.prefix TOKEN_ARG text
              then JStr (TOKEN_ARG ++ github_token) else arg).
Proof.
  revert out. induction args as [|a args IH]; intros out H.
  - injection H as <-. split; [reflexivity|].
    intros [|i] arg Hi; discriminate Hi.
  - simpl in H.
    destruct a as [| | |text| |]; try discriminate H. simpl in H.
    destruct (inject_token github_token args) as [rest|e]; [|discriminate H].
    simpl in H. injection H as <-.
    destruct (IH rest eq_refl) as [Hlen Hnth].
    split; [simpl; now rewrite Hlen|].
    intros [|i] arg Hi; simpl in Hi.
    + injection Hi as <-. exists text. split; reflexivity.
    + exact (Hnth i arg Hi).
Qed.

Lemma inject_token_replaces_placeholders_witness :
  let args := [JStr "run"; JStr "-e";
               JStr "GITHUB_PERSONAL_ACCESS_TOKEN=<YOUR_TOKEN>";
               JStr "ghcr.io/github/github-mcp-server"] in
  let out := [JStr "run"; JStr "-e";
              JStr "GITHUB_PERSONAL_ACCESS_TOKEN=ghp_123";
              JStr "ghcr.io/github/github-mcp-server"] in
  inject_token "ghp_123" args = Ok out /\
  List.length out = List.length args /\
  forall i arg,
    nth_error args i = Some arg ->
    exists text,
      arg = JStr text /\
      nth_error out i =
        Some (if String.prefix TOKEN_ARG text
              then JStr (TOKEN_ARG ++ "ghp_123") else arg).
Proof.
  intros args out. split; [reflexivity|].
  apply (inject_token_replaces_placeholders "ghp_123" args out).
  reflexivity.
Defined.

Lemma inject_token_cons (github_token text : string) (args : list json) :
  inject_token github_token (JStr text :: args) =
  (rest' <~ inject_token github_token args ;;
   Ok ((if String.prefix TOKEN_ARG text
        then JStr (TOKEN_ARG ++ github_token) else JStr text) :: rest')).
Proof. reflexivity. Qed.

Lemma inject_token_cons_ok (github_token text : string) (args out : list json) :
  inject_token github_token (JStr text :: args) = Ok out ->
  exists rest,
    inject_token github_token args = Ok rest /\
    out = (if String.prefix TOKEN_ARG text
           then JStr (TOKEN_ARG ++ github_token) else JStr text) :: rest.
Proof.
  rewrite inject_token_cons.
  destruct (inject_token github_token args) as [rest|e]; unfold rbind;
    intros H; [|discriminate H].
  exists rest. split; [reflexivity|]. injection H as <-. reflexivity.
Qed.

(** X17. Rewriting the arguments a second time, with the same or with
    another token, gives what the second rewriting alone gives: the
    replaced arguments still begin with the placeholder, so the last
    token wins and rewriting twice with one token changes nothing
    more. *)
Theorem inject_token_last_token_wins (first second : string)
    (args out : list json) :
  inject_token first args = Ok out ->
  inject_token second out = inject_token second args.
Proof.
  revert out. induction args as [|a args IH]; intros out H.
  - injection H as <-. reflexivity.
  - destruct a as [| | |text| |]; try discriminate H.
    destruct (inject_token_cons_ok first text args out H)
      as (rest & Hrest & ->).
    destruct (String.prefix TOKEN_ARG text) eqn:Hhit;
      rewrite !inject_token_cons, ?(prefix_append TOKEN_ARG first), ?Hhit,
        (IH rest Hrest);
      reflexivity.
Qed.

Lemma inject_token_last_token_wins_witness :
  let args := [JStr "-e"; JStr "GITHUB_PERSONAL_ACCESS_TOKEN=<YOUR_TOKEN>"] in
  let out := [JStr "-e"; JStr "GITHUB_PERSONAL_ACCESS_TOKEN=old"] in
  inject_token "old" args = Ok out /\
  inject_token "new" out = inject_token "new" args.
Proof.
  intros args out. split; [reflexivity|].
  apply (inject_token_last_token_wins "old" "new" args out). reflexivity.
Defined.

(** ** How the loop ends *)

Lemma ret_goes_on (s : State) (r : result flow) (s' : State) :
  ret Continue s = (r, s') -> r <> Ok Break.
Proof. intros H. injection H as <- _. discriminate. Qed.

Lemma bind_goes_on {A} (c : M A) (k : A -> M flow) :
  (forall a s r s', k a s = (r, s') -> r <> Ok Break) ->
  forall s r s', bind c k s = (r, s') -> r <> Ok Break.
Proof.
  intros Hk s r s' H. unfold bind in H.
  destruct (c s) as [[a|e] s1].
  - exact (Hk a s1 r s' H).
  - injection H as <- _. discriminate.
Qed.

(** A turn that is not [exit] does not end the loop. *)
Lemma break_only_on_exit (E : Env) (github_token raw : string)
    (s s' : State) :
  loop_body E github_token raw s = (Ok Break, s') ->
  normalise E raw = "exit".
Proof.
  unfold loop_body.
  destruct (String.eqb (normalise E raw) "exit") eqn:Hexit;
    [intros _; now apply String.eqb_eq|].
  intros H. exfalso.
  match type of H with
  | ?turn s = _ =>
      assert (G : forall t r t', turn t = (r, t') -> r <> Ok Break)
  end.
  { repeat match goal with
           | |- context [if ?b then _ else _] => destruct b
           end;
      repeat (apply bind_goes_on; intro); apply ret_goes_on. }
  exact (G s _ s' H eq_refl).
Qed.

(** X18. The loop ends normally only through [exit]: when a run returns
    without an exception, the lines typed contain one that, stripped
    and lowercased, is [exit], and no line before it is. *)
Theorem loop_ends_only_on_exit (E : Env) (github_token : string)
    (typed : list string) (s : State) :
  fst (main_loop E github_token typed s) = Ok tt ->
  exists before raw after,
    typed = (before ++ raw :: after)%list /\
    normalise E raw = "exit" /\
    Forall (fun line => normalise E line <> "exit") before.
Proof.
  revert s. induction typed as [|raw rest IH]; intros s H.
  - discriminate H.
  - simpl in H. unfold bind in H.
    destruct (loop_body E github_token raw s) as [[[|]|e] s1] eqn:Hbody.
    + destruct (IH s1 H) as (before & raw' & after & -> & Hexit & Hbefore).
      exists (raw :: before), raw', after.
      split; [reflexivity|]. split; [exact Hexit|].
      constructor; [|exact Hbefore].
      intros Hraw. unfold loop_body in Hbody. rewrite Hraw in Hbody.
      discriminate Hbody.
    + exists [], raw, rest. split; [reflexivity|].
      split; [exact (break_only_on_exit E github_token raw s s1 Hbody)|].
      constructor.
    + discriminate H.
Qed.

Lemma loop_ends_only_on_exit_witness :
  let typed := ["scan"; (nbsp ++ "Exit ")%string; "fmt"] in
  fst (main_loop five_env "token" typed (initial_state None)) = Ok tt /\
  exists before raw after,
    typed = (before ++ raw :: after)%list /\
    normalise five_env raw = "exit" /\
    Forall (fun line => normalise five_env line <> "exit") before.
Proof.
  intros typed.
  assert (H : fst (main_loop five_env "token" typed (initial_state None))
              = Ok tt)
    by (vm_compute; reflexivity).
  split; [exact H|].
  exact (loop_ends_only_on_exit five_env "token" typed (initial_state None) H).
Defined.

(** X19. What is typed after [exit] is never read: once a run over some
    lines has ended normally, the same run with more lines typed after
    them ends in the same state. *)
Theorem lines_after_exit_are_not_read (E : Env) (github_token : string)
    (typed more : list string) (s : State) :
  fst (main_loop E github_token typed s) = Ok tt ->
  main_loop E github_token (typed ++ more) s = main_loop E github_token typed s.
Proof.
  revert s. induction typed as [|raw rest IH]; intros s H.
  - discriminate H.
  - simpl in H |- *. unfold bind in H |- *.
    destruct (loop_body E github_token raw s) as [[[|]|e] s1].
    + exact (IH s1 H).
    + reflexivity.
    + reflexivity.
Qed.

Lemma lines_after_exit_are_not_read_witness :
  fst (main_loop five_env "token" ["scan"; "exit"] (initial_state None)) = Ok tt /\
  main_loop five_env "token" (["scan"; "exit"] ++ ["pr"; "hello"])
    (initial_state None)
  = main_loop five_env "token" ["scan"; "exit"] (initial_state None).
Proof.
  assert (H : fst (main_loop five_env "token" ["scan"; "exit"]
                     (initial_state None)) = Ok tt)
    by (vm_compute; reflexivity).
  split; [exact H|].
  exact (lines_after_exit_are_not_read five_env "token" ["scan"; "exit"]
           ["pr"; "hello"] (initial_state None) H).
Defined.

(** X20. A turn on [fmt], [auto_fmt] or [validate] never ends the
    program: whatever the Terraform processes do, any exit code or no
    process at all, the turn prints the wrapper's message and the loop
    goes on to the next line. *)
Theorem terraform_turns_always_continue (E : Env) (github_token raw : string)
    (s : State) :
  normalise E raw = "fmt" \/ normalise E raw = "auto_fmt"
  \/ normalise E raw = "validate" ->
  exists message s1,
    loop_body E github_token raw s = (Ok Continue, add_printed message s1) /\
    chat_messages s1 = chat_messages s /\
    printed s1 = printed s /\
    report_json s1 = report_json s.
Proof.
  intros [Hraw | [Hraw | Hraw]]; unfold loop_body; rewrite Hraw;
    cbn [String.eqb Ascii.eqb Bool.eqb andb].
  - unfold check_terraform_fmt, try_except, bind, subprocess_run.
    destruct (process E (List.length (ran s))); simpl;
      eexists; eexists; (split; [reflexivity|]); repeat split.
  - unfold auto_terraform_fmt, try_except, bind, subprocess_run.
    destruct (process E (List.length (ran s))); simpl;
      eexists; eexists; (split; [reflexivity|]); repeat split.
  - unfold check_terraform_validate, try_except, bind, subprocess_run.
    destruct (process E (List.length (ran s))); simpl;
      [|eexists; eexists; (split; [reflexivity|]); repeat split].
    match goal with
    | |- context [process E ?n] => destruct (process E n)
    end; simpl; eexists; eexists; (split; [reflexivity|]); repeat split.
Qed.

Lemma terraform_turns_always_continue_witness :
  (normalise no_terraform_env " Validate " = "fmt"
   \/ normalise no_terraform_env " Validate " = "auto_fmt"
   \/ normalise no_terraform_env " Validate " = "validate") /\
  exists message s1,
    loop_body no_terraform_env "token" " Validate " (initial_state None)
    = (Ok Continue, add_printed message s1) /\
    chat_messages s1 = chat_messages (initial_state None) /\
    printed s1 = printed (initial_state None) /\
    report_json s1 = report_json (initial_state None).
Proof.
  assert (H : normalise no_terraform_env " Validate " = "fmt"
              \/ normalise no_terraform_env " Validate " = "auto_fmt"
              \/ normalise no_terraform_env " Validate " = "validate")
    by (right; right; reflexivity).
  split; [exact H|].
  exact (terraform_turns_always_continue no_terraform_env "token" " Validate "
           (initial_state None) H).
Defined.
